(** * JARVIS backend server: a shallow embedding of [docs/jarvis-python-server.py]

    The server is a FastAPI application: five HTTP endpoints (vision, actions,
    planner, agent, agent/chat), a health check, and one WebSocket endpoint
    served through a process-wide [ConnectionManager].

    Python values are embedded as the inductive [value]; dictionaries keep
    their insertion order, as Python's do.  Every handler is a computation
    over the server state that either returns or raises; unlike a
    transactional error monad, what a handler did to the state before raising
    stays done, as in Python. *)

From Stdlib Require Import String Ascii List ZArith Bool Lia DecimalString.
Import ListNotations.
Local Open Scope string_scope.
Set Warnings "-register-all".

(** ** Python values *)

(** [VFloat] carries the literal of the float: the server never computes with
    floats, it only passes them on. *)
Inductive value : Type :=
| VNone
| VBool (b : bool)
| VInt (n : Z)
| VFloat (literal : string)
| VStr (s : string)
| VList (items : list value)
| VDict (entries : list (string * value)).

(** A [dict] with [str] keys, in insertion order. *)
Definition dict : Type := list (string * value).

Fixpoint dict_lookup (d : dict) (key : string) : option value :=
  match d with
  | [] => None
  | (k, v) :: rest => if String.eqb k key then Some v else dict_lookup rest key
  end.

(** [d.get(key, default)] *)
Definition dict_get (d : dict) (key : string) (default : value) : value :=
  match dict_lookup d key with
  | Some v => v
  | None => default
  end.

Definition keys (d : dict) : list string := map fst d.

(** ** Exceptions

    Only classes derived from [Exception] are modelled, so that an
    [except Exception] clause catches every [exn]. [exn_text e] is [str(e)]. *)

Inductive exn_class : Type :=
| WebSocketDisconnect
| JSONDecodeError
| ValueError
| AttributeError
| TypeError
| RuntimeError.

Record exn : Type := mkExn { exn_class_of : exn_class; exn_text : string }.

Definition is_WebSocketDisconnect (e : exn) : bool :=
  match exn_class_of e with
  | WebSocketDisconnect => true
  | _ => false
  end.

(** ** Server state *)

(** A WebSocket object, known by its identity. *)
Definition WebSocket : Type := nat.

(** [active_connections] is the list held by the one [ConnectionManager].
    [outbox] is a ghost record of every [send_json] call made so far, oldest
    first, whether or not the transport delivered it. *)
Record Server : Type := mkServer {
  active_connections : list WebSocket;
  outbox : list (WebSocket * value)
}.

Definition manager : Server := mkServer [] [].

(** ** Computations that may raise *)

Definition M (A : Type) : Type := Server -> (exn + A) * Server.

Definition ret {A} (a : A) : M A := fun s => (inr a, s).

Definition raise {A} (e : exn) : M A := fun s => (inl e, s).

Definition bind {A B} (m : M A) (k : A -> M B) : M B :=
  fun s =>
    match m s with
    | (inr a, s') => k a s'
    | (inl e, s') => (inl e, s')
    end.

Definition lift {A} (r : exn + A) : M A := fun s => (r, s).

(** [try: body  except Exception as e: handler e] *)
Definition try_except {A} (body : M A) (handler : exn -> M A) : M A :=
  fun s =>
    match body s with
    | (inr a, s') => (inr a, s')
    | (inl e, s') => handler e s'
    end.

(** [try: body  except WebSocketDisconnect: handler] *)
Definition try_except_disconnect {A} (body : M A) (handler : M A) : M A :=
  fun s =>
    match body s with
    | (inr a, s') => (inr a, s')
    | (inl e, s') => if is_WebSocketDisconnect e then handler s' else (inl e, s')
    end.

Declare Scope py_scope.
Delimit Scope py_scope with py.
Notation "x <- m ;; k" := (bind m (fun x => k))
  (at level 61, m at next level, right associativity) : py_scope.
Notation "m ;; k" := (bind m (fun _ => k))
  (at level 61, right associativity) : py_scope.
Local Open Scope py_scope.

(** ** Request models (pydantic) *)

Module VisionRequest.
Record t : Type := mk { action : string; data : option dict }.
End VisionRequest.

Module ActionRequest.
Record t : Type := mk { action : string; data : dict }.
End ActionRequest.

Module PlannerRequest.
Record t : Type := mk { goal : string; context : option dict }.
End PlannerRequest.

Module AgentRequest.
Record t : Type := mk { command : string; mode : option string; context : option dict }.
(** [mode] defaults to ["auto"], [context] to [None]. *)
Definition make (command : string) : t := mk command (Some "auto") None.
End AgentRequest.

(** The body every handler returns from its [except Exception as e] clause. *)
Definition failure (text : string) : value :=
  VDict [("success", VBool false); ("error", VStr text)].

(** ** Vision module *)

Definition vision_endpoint (request : VisionRequest.t) : M value :=
  try_except
    (if VisionRequest.action request =? "capture_screen" then
       ret (VDict [("success", VBool true);
                   ("data", VDict [("image_base64", VStr "BASE64_DA_IMAGEM_AQUI");
                                   ("width", VInt 1920);
                                   ("height", VInt 1080)])])
     else if VisionRequest.action request =? "analyze_image" then
       ret (VDict [("success", VBool true);
                   ("data", VDict [("analysis", VStr "Descrição da análise da imagem")])])
     else if VisionRequest.action request =? "find_element" then
       ret (VDict [("success", VBool true);
                   ("data", VDict [("elements", VList [
                      VDict [("label", VStr "botão");
                             ("bbox", VDict [("x", VInt 100); ("y", VInt 200);
                                             ("width", VInt 80); ("height", VInt 30)]);
                             ("confidence", VFloat "0.95")]])])])
     else if VisionRequest.action request =? "ocr" then
       ret (VDict [("success", VBool true);
                   ("data", VDict [("text", VStr "Texto extraído da tela")])])
     else
       ret (failure ("Ação desconhecida: " ++ VisionRequest.action request)))
    (fun e => ret (failure (exn_text e))).

(** ** Services of the interpreter and of the transport

    What the handlers call but do not define.  [py_str v] is [str(v)] on an
    arbitrary payload value, as an f-string applies it; [json_loads] is
    [json.loads]; both may raise.  [transport_send n ws message] tells whether
    the [n]-th [send_json] of the run, addressed to [ws], fails, and
    [transport_accept ws] whether the handshake of [ws] does. *)

(** One segment of an f-string: literal text, or a replacement field. *)
Inductive piece : Type :=
| Lit (text : string)
| Field (v : value).

(** [type(v).__name__] *)
Definition type_name (v : value) : string :=
  match v with
  | VNone => "NoneType"
  | VBool _ => "bool"
  | VInt _ => "int"
  | VFloat _ => "float"
  | VStr _ => "str"
  | VList _ => "list"
  | VDict _ => "dict"
  end.

(** [message.get(key, default)] on a value that need not be a [dict]. *)
Definition value_get (message : value) (key : string) (default : value) : M value :=
  match message with
  | VDict d => ret (dict_get d key default)
  | other =>
      raise (mkExn AttributeError
               ("'" ++ type_name other ++ "' object has no attribute 'get'"))
  end.

(** [l.remove(x)]: drops the first occurrence, [None] when there is none. *)
Fixpoint list_remove (x : WebSocket) (l : list WebSocket) : option (list WebSocket) :=
  match l with
  | [] => None
  | y :: rest =>
      if Nat.eqb y x then Some rest
      else match list_remove x rest with
           | Some rest' => Some (y :: rest')
           | None => None
           end
  end.

(** One event at [await websocket.receive_text()]: a text frame, together with
    the reading [datetime.now().isoformat()] gives while it is handled, or an
    exception raised by the receive. *)
Inductive inbound : Type :=
| Text (data : string) (now : string)
| ReceiveRaises (e : exn).

(** Where [websocket_endpoint] stands once the inbound events are used up:
    suspended in [receive_text], or returned. *)
Inductive status : Type :=
| Awaiting
| Returned.

(** [connections.append(websocket)] *)
Definition joined (s : Server) (websocket : WebSocket) : Server :=
  mkServer (active_connections s ++ [websocket]) (outbox s).

Section Services.

Variable py_str : value -> exn + string.
Variable json_loads : string -> exn + value.
Variable transport_send : nat -> WebSocket -> value -> option exn.
Variable transport_accept : WebSocket -> option exn.

(** Evaluation of an f-string, fields left to right. *)
Fixpoint fstring (pieces : list piece) : M string :=
  match pieces with
  | [] => ret ""
  | Lit text :: rest =>
      tail <- fstring rest ;;
      ret (text ++ tail)
  | Field v :: rest =>
      shown <- lift (py_str v) ;;
      tail <- fstring rest ;;
      ret (shown ++ tail)
  end.

(** *** Actions module *)

Definition actions_endpoint (request : ActionRequest.t) : M value :=
  try_except
    (let data := ActionRequest.data request in
     if ActionRequest.action request =? "click" then
       message <- fstring [Lit "Clique em ("; Field (dict_get data "x" VNone);
                           Lit ", "; Field (dict_get data "y" VNone); Lit ")"] ;;
       ret (VDict [("success", VBool true); ("message", VStr message)])
     else if ActionRequest.action request =? "type" then
       message <- fstring [Lit "Digitado: "; Field (dict_get data "text" VNone)] ;;
       ret (VDict [("success", VBool true); ("message", VStr message)])
     else if ActionRequest.action request =? "scroll" then
       message <- fstring [Lit "Scroll "; Field (dict_get data "direction" VNone)] ;;
       ret (VDict [("success", VBool true); ("message", VStr message)])
     else if ActionRequest.action request =? "hotkey" then
       message <- fstring [Lit "Atalho: "; Field (dict_get data "keys" VNone)] ;;
       ret (VDict [("success", VBool true); ("message", VStr message)])
     else if ActionRequest.action request =? "move_mouse" then
       message <- fstring [Lit "Mouse movido para ("; Field (dict_get data "x" VNone);
                           Lit ", "; Field (dict_get data "y" VNone); Lit ")"] ;;
       ret (VDict [("success", VBool true); ("message", VStr message)])
     else if ActionRequest.action request =? "drag" then
       ret (VDict [("success", VBool true); ("message", VStr "Drag executado")])
     else
       ret (failure ("Ação desconhecida: " ++ ActionRequest.action request)))
    (fun e => ret (failure (exn_text e))).

(** *** Planner module *)

Definition planner_endpoint (request : PlannerRequest.t) : M value :=
  try_except
    (ret (VDict [("success", VBool true);
                 ("plan", VDict [
                    ("steps", VList [
                       VDict [("id", VInt 1); ("action", VStr "capture_screen");
                              ("description", VStr "Capturar tela atual")];
                       VDict [("id", VInt 2); ("action", VStr "find_element");
                              ("description", VStr "Encontrar elemento alvo")];
                       VDict [("id", VInt 3); ("action", VStr "click");
                              ("description", VStr "Clicar no elemento")]]);
                    ("reasoning",
                     VStr ("Plano gerado para: " ++ PlannerRequest.goal request))])]))
    (fun e => ret (failure (exn_text e))).

(** *** Agent module *)

Definition agent_endpoint (request : AgentRequest.t) : M value :=
  try_except
    (ret (VDict [("success", VBool true);
                 ("response",
                  VStr ("Processando comando: " ++ AgentRequest.command request));
                 ("actions_taken", VList []);
                 ("plan", VNone)]))
    (fun e => ret (failure (exn_text e))).

Definition agent_chat_endpoint (request : AgentRequest.t) : M value :=
  try_except
    (let history :=
       match AgentRequest.context request with
       | Some (entry :: more) =>
           dict_get (entry :: more) "conversation_history" (VList [])
       | _ => VList []
       end in
     ret (VDict [("success", VBool true);
                 ("response",
                  VStr ("Olá! Você disse: " ++ AgentRequest.command request))]))
    (fun e => ret (failure (exn_text e))).

(** *** WebSocket *)

(** [await websocket.accept()] *)
Definition accept (websocket : WebSocket) : M unit :=
  fun s =>
    match transport_accept websocket with
    | None => (inr tt, s)
    | Some e => (inl e, s)
    end.

(** [await websocket.send_json(message)] *)
Definition send_json (websocket : WebSocket) (message : value) : M unit :=
  fun s =>
    let s' := mkServer (active_connections s) (outbox s ++ [(websocket, message)]) in
    match transport_send (length (outbox s)) websocket message with
    | None => (inr tt, s')
    | Some e => (inl e, s')
    end.

(** [ConnectionManager.connect] *)
Definition connect (websocket : WebSocket) : M unit :=
  accept websocket ;;
  fun s => (inr tt, mkServer (active_connections s ++ [websocket]) (outbox s)).

(** [ConnectionManager.disconnect] *)
Definition disconnect (websocket : WebSocket) : M unit :=
  fun s =>
    match list_remove websocket (active_connections s) with
    | Some remaining => (inr tt, mkServer remaining (outbox s))
    | None => (inl (mkExn ValueError "list.remove(x): x not in list"), s)
    end.

(** [for connection in connections: await connection.send_json(message)] *)
Fixpoint send_to_each (connections : list WebSocket) (message : value) : M unit :=
  match connections with
  | [] => ret tt
  | connection :: rest =>
      send_json connection message ;;
      send_to_each rest message
  end.

(** [ConnectionManager.broadcast]. Nothing else runs between two sends here,
    so the list iterated is the list at entry. *)
Definition broadcast (message : value) : M unit :=
  fun s => send_to_each (active_connections s) message s.

(** The body of [while True], once per inbound event; when the events are
    used up the handler is suspended in [receive_text]. *)
Fixpoint receive_loop (websocket : WebSocket) (inbox : list inbound) : M status :=
  match inbox with
  | [] => ret Awaiting
  | ReceiveRaises e :: _ => raise e
  | Text data now :: rest =>
      message <- lift (json_loads data) ;;
      module <- value_get message "module" (VStr "system") ;;
      id <- value_get message "id" VNone ;;
      let response :=
        VDict [("type", VStr "response");
               ("module", module);
               ("payload", VDict [("status", VStr "received"); ("original", message)]);
               ("timestamp", VStr now);
               ("id", id)] in
      send_json websocket response ;;
      receive_loop websocket rest
  end.

Definition websocket_endpoint (websocket : WebSocket) (inbox : list inbound) : M status :=
  connect websocket ;;
  try_except_disconnect
    (receive_loop websocket inbox)
    (disconnect websocket ;; ret Returned).

(** *** Health check; [now] is the reading of [datetime.now().isoformat()]. *)

Definition health_check (now : string) : M value :=
  ret (VDict [("status", VStr "healthy");
              ("modules", VList [VStr "vision"; VStr "actions";
                                 VStr "planner"; VStr "agent"]);
              ("timestamp", VStr now)]).

End Services.

(** ** An interpreter and a transport to run the handlers on

    The theorems below hold whatever the services do.  To run a handler on a
    concrete request the services are fixed as follows. *)

Definition double_quote : ascii := ascii_of_nat 34.
Definition single_quote : ascii := ascii_of_nat 39.
Definition backslash : ascii := ascii_of_nat 92.

Fixpoint occurs (c : ascii) (s : string) : bool :=
  match s with
  | EmptyString => false
  | String c' rest => Ascii.eqb c c' || occurs c rest
  end.

Definition hex_digit (n : nat) : ascii :=
  if Nat.ltb n 10 then ascii_of_nat (48 + n) else ascii_of_nat (87 + n).

(** One character of [repr] of a [str] written between [quote]s. Bytes of a
    multi-byte character pass unchanged, as printable characters do. *)
Definition repr_char (quote c : ascii) : string :=
  let n := nat_of_ascii c in
  if Ascii.eqb c quote || Ascii.eqb c backslash then String backslash (String c "")
  else if Nat.eqb n 9 then String backslash "t"
  else if Nat.eqb n 10 then String backslash "n"
  else if Nat.eqb n 13 then String backslash "r"
  else if Nat.ltb n 32 || Nat.eqb n 127 then
    String backslash
      (String "x"
         (String (hex_digit (Nat.div n 16))
            (String (hex_digit (Nat.modulo n 16)) "")))
  else String c "".

Fixpoint repr_chars (quote : ascii) (s : string) : string :=
  match s with
  | EmptyString => ""
  | String c rest => repr_char quote c ++ repr_chars quote rest
  end.

(** [repr] of a [str]: single quotes, unless the text has one and no double
    quote. *)
Definition repr_str (s : string) : string :=
  let quote :=
    if occurs single_quote s && negb (occurs double_quote s)
    then double_quote else single_quote in
  String quote (repr_chars quote s ++ String quote "").

Fixpoint repr (v : value) : string :=
  match v with
  | VNone => "None"
  | VBool true => "True"
  | VBool false => "False"
  | VInt n => NilZero.string_of_int (Z.to_int n)
  | VFloat literal => literal
  | VStr s => repr_str s
  | VList items =>
      "[" ++ (fix join (l : list value) : string :=
                match l with
                | [] => ""
                | x :: rest =>
                    match rest with
                    | [] => repr x
                    | _ :: _ => repr x ++ ", " ++ join rest
                    end
                end) items ++ "]"
  | VDict entries =>
      "{" ++ (fix join (l : list (string * value)) : string :=
                match l with
                | [] => ""
                | (k, x) :: rest =>
                    match rest with
                    | [] => repr_str k ++ ": " ++ repr x
                    | _ :: _ => repr_str k ++ ": " ++ repr x ++ ", " ++ join rest
                    end
                end) entries ++ "}"
  end.

(** [str(v)]: the text itself for a [str], [repr] otherwise. *)
Definition str (v : value) : exn + string :=
  match v with
  | VStr s => inr s
  | other => inr (repr other)
  end.

(** Three text frames and what [json.loads] makes of them: an object with a
    correlation id, an array, and text that is not JSON. *)
Definition quoted (s : string) : string :=
  String double_quote (s ++ String double_quote "").

Definition capture_frame : string :=
  "{" ++ quoted "module" ++ ": " ++ quoted "vision" ++ ", "
      ++ quoted "id" ++ ": " ++ quoted "req-1" ++ ", "
      ++ quoted "payload" ++ ": {}}".

Definition capture_message : dict :=
  [("module", VStr "vision"); ("id", VStr "req-1"); ("payload", VDict [])].

Definition expecting_value : exn :=
  mkExn JSONDecodeError "Expecting value: line 1 column 1 (char 0)".

(** [json.loads] on those frames; any other text is taken as undecodable. *)
Definition loads (data : string) : exn + value :=
  if data =? capture_frame then inr (VDict capture_message)
  else if data =? "[]" then inr (VList [])
  else inl expecting_value.

(** A transport on which every send to connection [2] fails, and a sound one. *)
Definition peer_gone : exn :=
  mkExn RuntimeError
    ("Cannot call " ++ quoted "send" ++ " once a close message has been sent.").

Definition lossy (n : nat) (websocket : WebSocket) (message : value) : option exn :=
  if Nat.eqb websocket 2 then Some peer_gone else None.

Definition sound (n : nat) (websocket : WebSocket) (message : value) : option exn := None.

Definition welcoming (websocket : WebSocket) : option exn := None.

(** The vocabulary of the actions module. *)
Definition action_vocabulary : list string :=
  ["click"; "type"; "scroll"; "hotkey"; "move_mouse"; "drag"].

(** What a response reports as executed steps, and what a handler put on the
    wire between two states. *)
Definition step_results (response : value) : list value :=
  match response with
  | VDict d =>
      match dict_get d "actions_taken" VNone with
      | VList taken => taken
      | _ => []
      end
  | _ => []
  end.

Definition events_emitted (before after : Server) : list (WebSocket * value) :=
  skipn (length (outbox before)) (outbox after).


(** The answer of the WebSocket handler to a frame decoded to the object
    [entries] at time [now], as [receive_loop] builds it. *)
Definition response_to (entries : dict) (now : string) : dict :=
  [("type", VStr "response");
   ("module", dict_get entries "module" (VStr "system"));
   ("payload", VDict [("status", VStr "received"); ("original", VDict entries)]);
   ("timestamp", VStr now);
   ("id", dict_get entries "id" VNone)].

(** The requests of the scenarios. *)
Definition teleport : ActionRequest.t := ActionRequest.mk "teleport" [].

Definition screenshot_and_click : AgentRequest.t :=
  AgentRequest.make "take a screenshot and click at (100,200)".

Definition empty_goal : PlannerRequest.t := PlannerRequest.mk "" None.

Definition canned_steps : list value :=
  [VDict [("id", VInt 1); ("action", VStr "capture_screen");
          ("description", VStr "Capturar tela atual")];
   VDict [("id", VInt 2); ("action", VStr "find_element");
          ("description", VStr "Encontrar elemento alvo")];
   VDict [("id", VInt 3); ("action", VStr "click");
          ("description", VStr "Clicar no elemento")]].

(** The vocabulary of the vision module. *)
Definition vision_vocabulary : list string :=
  ["capture_screen"; "analyze_image"; "find_element"; "ocr"].

(** A computation that leaves the server as it found it: registry and
    outbox. *)
Definition stateless {A} (m : M A) : Prop := forall s, snd (m s) = s.

(** A text frame that decodes to an object: its text, the clock reading
    while it is handled, and the entries of the object. *)
Definition frame : Type := string * string * dict.

Definition frame_data (f : frame) : string := fst (fst f).
Definition frame_now (f : frame) : string := snd (fst f).
Definition frame_entries (f : frame) : dict := snd f.

(** The receive events of a run of such frames, and the answers they get. *)
Definition texts (frames : list frame) : list inbound :=
  map (fun f => Text (frame_data f) (frame_now f)) frames.

Definition answers (websocket : WebSocket) (frames : list frame)
  : list (WebSocket * value) :=
  map (fun f => (websocket, VDict (response_to (frame_entries f) (frame_now f))))
      frames.

(** How many text frames a run of receive events holds. *)
Definition text_count (inbox : list inbound) : nat :=
  length (filter (fun event => match event with Text _ _ => true | _ => false end)
                 inbox).

(** A transport whose peer has hung up: every send raises
    [WebSocketDisconnect]. *)
Definition hung_up_error : exn := mkExn WebSocketDisconnect "1006".

Definition hung_up (n : nat) (websocket : WebSocket) (message : value) : option exn :=
  Some hung_up_error.

(** [json.loads] that also knows the empty object. *)
Definition loads_bare (data : string) : exn + value :=
  if data =? "{}" then inr (VDict []) else loads data.

(** * Properties *)

(** ** The registry *)

Lemma list_remove_absent (x : WebSocket) (l : list WebSocket) :
  ~ In x l -> list_remove x l = None.
Proof.
  induction l as [| y rest IH]; simpl; intros Hout.
  - reflexivity.
  - destruct (Nat.eqb_spec y x) as [-> | Hne].
    + exfalso. apply Hout. now left.
    + rewrite IH; [reflexivity | tauto].
Qed.

Lemma list_remove_present (x : WebSocket) (l : list WebSocket) :
  In x l -> exists before after,
    l = (before ++ x :: after)%list /\ ~ In x before
    /\ list_remove x l = Some (before ++ after)%list.
Proof.
  induction l as [| y rest IH]; simpl; intros Hin.
  - contradiction.
  - destruct (Nat.eqb_spec y x) as [-> | Hne].
    + exists [], rest. simpl. tauto.
    + destruct Hin as [Heq | Hin]; [congruence |].
      destruct (IH Hin) as (before & after & -> & Hout & ->).
      exists (y :: before), after. simpl. intuition congruence.
Qed.

Lemma disconnect_keeps_outbox (ws : WebSocket) (s : Server) :
  outbox (snd (disconnect ws s)) = outbox s.
Proof.
  unfold disconnect. destruct (list_remove ws (active_connections s)); reflexivity.
Qed.

(** ** HTTP handlers never raise: they all end in [except Exception] *)

Lemma try_except_returns {A} (body : M A) (handler : exn -> M A) (s : Server) :
  (forall e s', exists a, fst (handler e s') = inr a) ->
  exists a, fst (try_except body handler s) = inr a.
Proof.
  intros Hh. unfold try_except.
  destruct (body s) as [[e | a] s'].
  - apply Hh.
  - now exists a.
Qed.

Lemma failure_handler_returns (e : exn) (s : Server) :
  exists a, fst (ret (failure (exn_text e)) s) = inr a.
Proof. now eexists. Qed.

Lemma vision_endpoint_returns request s :
  exists body, fst (vision_endpoint request s) = inr body.
Proof. apply try_except_returns, failure_handler_returns. Qed.

Lemma actions_endpoint_returns py_str request s :
  exists body, fst (actions_endpoint py_str request s) = inr body.
Proof. apply try_except_returns, failure_handler_returns. Qed.

Lemma planner_endpoint_returns request s :
  exists body, fst (planner_endpoint request s) = inr body.
Proof. apply try_except_returns, failure_handler_returns. Qed.

Lemma agent_endpoint_returns request s :
  exists body, fst (agent_endpoint request s) = inr body.
Proof. apply try_except_returns, failure_handler_returns. Qed.

Lemma agent_chat_endpoint_returns request s :
  exists body, fst (agent_chat_endpoint request s) = inr body.
Proof. apply try_except_returns, failure_handler_returns. Qed.

(** A failing [str] inside an f-string is reported, not raised. *)
Example click_with_failing_str :
  actions_endpoint (fun _ => inl (mkExn TypeError "unprintable"))
    (ActionRequest.mk "click" []) manager
  = (inr (failure "unprintable"), manager).
Proof. reflexivity. Qed.

Example click_at_100_200 :
  actions_endpoint str
    (ActionRequest.mk "click" [("x", VInt 100); ("y", VInt 200)]) manager
  = (inr (VDict [("success", VBool true); ("message", VStr "Clique em (100, 200)")]),
     manager).
Proof. reflexivity. Qed.

Example hotkey_ctrl_c :
  actions_endpoint str
    (ActionRequest.mk "hotkey" [("keys", VList [VStr "ctrl"; VStr "c"])]) manager
  = (inr (VDict [("success", VBool true); ("message", VStr "Atalho: ['ctrl', 'c']")]),
     manager).
Proof. reflexivity. Qed.

(** ** Actions: unknown action names *)

(** C1, as the specification words it, fails: for the request
    [{action: "teleport"}] the handler answers
    [{success: false, error: "Ação desconhecida: teleport"}], which is not the
    [{success: false, error: "UnknownAction: teleport"}] of the scenario. *)
Lemma teleport_error_text :
  actions_endpoint str teleport manager
  = (inr (failure "Ação desconhecida: teleport"), manager)
  /\ fst (actions_endpoint str teleport manager)
     <> inr (failure "UnknownAction: teleport").
Proof.
  split; [reflexivity |].
  cbn. intros H. discriminate H.
Qed.

(** C1, amended: for every action request whose action name is outside
    [click, type, scroll, hotkey, move_mouse, drag], whatever [str] does, the
    actions handler returns (it does not raise)
    [{success: false, error: "Ação desconhecida: " + action}] and leaves the
    server state as it was. *)
Theorem unknown_action_reported
    (py_str : value -> exn + string) (request : ActionRequest.t) (s : Server) :
  ~ In (ActionRequest.action request) action_vocabulary ->
  actions_endpoint py_str request s
  = (inr (failure ("Ação desconhecida: " ++ ActionRequest.action request)), s).
Proof.
  intros Hout.
  assert (Hne : forall name, In name action_vocabulary ->
                             (ActionRequest.action request =? name) = false).
  { intros name Hin. apply String.eqb_neq. intros Heq. apply Hout.
    rewrite Heq. exact Hin. }
  unfold actions_endpoint, try_except.
  rewrite (Hne "click"), (Hne "type"), (Hne "scroll"), (Hne "hotkey"),
    (Hne "move_mouse"), (Hne "drag") by (simpl; tauto).
  reflexivity.
Qed.

(** The amended C1 at the request [teleport]. *)
Lemma unknown_action_reported_teleport :
  ~ In (ActionRequest.action teleport) action_vocabulary
  /\ actions_endpoint str teleport manager
     = (inr (failure ("Ação desconhecida: " ++ ActionRequest.action teleport)), manager).
Proof.
  assert (Hout : ~ In (ActionRequest.action teleport) action_vocabulary).
  { simpl. intros H. repeat (destruct H as [H | H]; [discriminate H |]). exact H. }
  split; [exact Hout | exact (unknown_action_reported str teleport manager Hout)].
Defined.

(** ** Registry: unregistering *)

(** C4, as the specification words it, fails: with one connection [7]
    registered, unregistering it twice raises [ValueError] the second time. *)
Lemma second_disconnect_raises :
  (disconnect 7 ;; disconnect 7) (mkServer [7] [])
  = (inl (mkExn ValueError "list.remove(x): x not in list"), mkServer [] []).
Proof. reflexivity. Qed.

(** C4, amended: unregistering a connection that is not registered leaves
    the registry unchanged, and raises [ValueError]. *)
Theorem disconnect_absent_raises (websocket : WebSocket) (s : Server) :
  ~ In websocket (active_connections s) ->
  disconnect websocket s
  = (inl (mkExn ValueError "list.remove(x): x not in list"), s).
Proof.
  intros Hout. unfold disconnect.
  rewrite (list_remove_absent _ _ Hout). reflexivity.
Qed.

(** The amended C4 at connection [7] and the empty registry. *)
Lemma disconnect_absent_raises_on_empty :
  ~ In 7 (active_connections manager)
  /\ disconnect 7 manager
     = (inl (mkExn ValueError "list.remove(x): x not in list"), manager).
Proof.
  assert (Hout : ~ In 7 (active_connections manager)) by (simpl; tauto).
  split; [exact Hout | exact (disconnect_absent_raises 7 manager Hout)].
Defined.

(** X10: unregistering a registered connection succeeds and removes it at
    its first occurrence; the connections before and after it keep their
    order. *)
Lemma disconnect_present (websocket : WebSocket) (s : Server) :
  In websocket (active_connections s) ->
  exists before after,
    active_connections s = (before ++ websocket :: after)%list
    /\ ~ In websocket before
    /\ disconnect websocket s = (inr tt, mkServer (before ++ after) (outbox s)).
Proof.
  intros Hin.
  destruct (list_remove_present _ _ Hin) as (before & after & Hl & Hout & Hrem).
  exists before, after. unfold disconnect. rewrite Hrem. tauto.
Qed.

(** ** Agent and planner *)

Lemma agent_endpoint_run (request : AgentRequest.t) (s : Server) :
  agent_endpoint request s
  = (inr (VDict [("success", VBool true);
                 ("response",
                  VStr ("Processando comando: " ++ AgentRequest.command request));
                 ("actions_taken", VList []);
                 ("plan", VNone)]), s).
Proof. reflexivity. Qed.


Lemma events_emitted_same (s : Server) : events_emitted s s = [].
Proof. unfold events_emitted. apply skipn_all. Qed.

(** C5, as the specification words it, fails: with an observer connected,
    the command "take a screenshot and click at (100,200)" in mode [auto]
    yields no step result and no event, not two and four. *)
Lemma screenshot_and_click_runs_nothing :
  exists response s',
    agent_endpoint screenshot_and_click (mkServer [1] []) = (inr response, s')
    /\ length (step_results response) <> 2
    /\ length (events_emitted (mkServer [1] []) s') <> 4.
Proof.
  eexists. eexists. split; [reflexivity |].
  split; cbn; intros H; discriminate H.
Qed.

(** C5, amended: for every command, mode and context, the agent handler
    returns [{success: true, response: "Processando comando: " + command,
    actions_taken: [], plan: None}]: no plan is requested, there is no step
    result, and no event is sent to any connection. *)
Theorem agent_endpoint_canned (request : AgentRequest.t) (s : Server) :
  exists response s',
    agent_endpoint request s = (inr response, s')
    /\ response
       = VDict [("success", VBool true);
                ("response",
                 VStr ("Processando comando: " ++ AgentRequest.command request));
                ("actions_taken", VList []);
                ("plan", VNone)]
    /\ step_results response = []
    /\ events_emitted s s' = []
    /\ s' = s.
Proof.
  eexists. exists s. rewrite agent_endpoint_run.
  repeat split. apply events_emitted_same.
Qed.

(** C6, as the specification words it, fails: for the empty goal the planner
    handler reports success with a plan, and the agent handler reports success
    for the empty command; neither ends in a failure. *)
Lemma empty_goal_is_planned :
  (exists plan,
     fst (planner_endpoint empty_goal manager)
     = inr (VDict [("success", VBool true); ("plan", plan)]))
  /\ (forall text, fst (planner_endpoint empty_goal manager) <> inr (failure text))
  /\ (forall text, fst (agent_endpoint (AgentRequest.make "") manager)
                   <> inr (failure text)).
Proof.
  split; [eexists; reflexivity |].
  split; intros text H; cbn in H; discriminate H.
Qed.

(** C6, amended: for the empty goal the planner handler returns
    [success: true] with the three canned steps and the reasoning
    "Plano gerado para: "; the agent handler, given the empty command,
    returns [success: true] with no step result and sends no event; nothing
    is retried, as no plan generator is called. *)
Theorem empty_goal_outcome (s : Server) :
  planner_endpoint empty_goal s
  = (inr (VDict [("success", VBool true);
                 ("plan", VDict [("steps", VList canned_steps);
                                 ("reasoning", VStr "Plano gerado para: ")])]), s)
  /\ exists response s',
       agent_endpoint (AgentRequest.make "") s = (inr response, s')
       /\ response
          = VDict [("success", VBool true);
                   ("response", VStr "Processando comando: ");
                   ("actions_taken", VList []);
                   ("plan", VNone)]
       /\ step_results response = []
       /\ events_emitted s s' = [].
Proof.
  split; [reflexivity |].
  eexists. exists s. rewrite agent_endpoint_run.
  repeat split. apply events_emitted_same.
Qed.


(** ** Health check *)

(** C9: the health check returns a dictionary with exactly the keys
    [status], [modules], [timestamp], whose [modules] is the fixed list
    [vision, actions, planner, agent]; the answer is the same in every server
    state, and the state is left as it was. *)
Theorem health_check_shape (now : string) :
  exists body,
    keys body = ["status"; "modules"; "timestamp"]
    /\ dict_lookup body "modules"
       = Some (VList [VStr "vision"; VStr "actions"; VStr "planner"; VStr "agent"])
    /\ forall s, health_check now s = (inr (VDict body), s).
Proof.
  eexists. split; [| split; [| intros s; reflexivity]]; reflexivity.
Qed.

(** ** Vision *)

(** C10: the answer of the vision handler does not depend on the [data] of
    the request: two requests with the same action get equal answers; and
    [capture_screen] always reports width 1920 and height 1080. *)
Theorem vision_ignores_data :
  (forall action d1 d2 s,
     vision_endpoint (VisionRequest.mk action d1) s
     = vision_endpoint (VisionRequest.mk action d2) s)
  /\ (forall d s, exists payload,
        vision_endpoint (VisionRequest.mk "capture_screen" d) s
        = (inr (VDict [("success", VBool true); ("data", VDict payload)]), s)
        /\ dict_lookup payload "width" = Some (VInt 1920)
        /\ dict_lookup payload "height" = Some (VInt 1080)).
Proof.
  split.
  - intros action d1 d2 s. reflexivity.
  - intros d s. eexists. split; [reflexivity |]. split; reflexivity.
Qed.

(** ** Registry: broadcasting *)

Lemma send_to_each_run
    (transport : nat -> WebSocket -> value -> option exn) (message : value)
    (connections : list WebSocket) :
  forall s,
    active_connections (snd (send_to_each transport connections message s))
    = active_connections s
    /\ exists attempted rest,
         connections = (attempted ++ rest)%list
         /\ outbox (snd (send_to_each transport connections message s))
            = (outbox s ++ map (fun c => (c, message)) attempted)%list
         /\ (fst (send_to_each transport connections message s) = inr tt -> rest = [])
         /\ (forall e,
               fst (send_to_each transport connections message s) = inl e ->
               exists before failed,
                 attempted = (before ++ [failed])%list
                 /\ transport (length (outbox s) + length before) failed message
                    = Some e).
Proof.
  induction connections as [| c rest IH]; intros s.
  - simpl. split; [reflexivity |].
    exists [], []. simpl. rewrite app_nil_r.
    repeat split. intros e H. discriminate H.
  - simpl. unfold bind, send_json.
    destruct (transport (length (outbox s)) c message) as [e |] eqn:Hsend.
    + simpl. split; [reflexivity |].
      exists [c], rest. simpl. repeat split.
      * intros H. discriminate H.
      * intros e' H. injection H as <-.
        exists [], c. simpl. rewrite Nat.add_0_r. tauto.
    + destruct (IH (mkServer (active_connections s) (outbox s ++ [(c, message)])))
        as (Hreg & attempted & rest' & Hsplit & Hout & Hok & Hfail).
      simpl in Hreg, Hout. split; [exact Hreg |].
      exists (c :: attempted), rest'. simpl.
      split; [now rewrite Hsplit |].
      split; [now rewrite Hout, <- app_assoc |].
      split; [exact Hok |].
      intros e H. destruct (Hfail e H) as (before & failed & -> & Hsend').
      exists (c :: before), failed. split; [reflexivity |].
      simpl in Hsend'. rewrite length_app in Hsend'. simpl in Hsend'. simpl.
      replace (length (outbox s) + S (length before))
        with (length (outbox s) + 1 + length before) by lia.
      exact Hsend'.
Qed.

(** C3, as the specification words it, fails: with connections 1, 2, 3
    registered and the send to 2 failing, [broadcast] raises after its second
    send; connection 3 is never tried and connection 2 stays registered. *)
Lemma broadcast_aborts_at_failed_send :
  broadcast lossy (VDict [("type", VStr "step_started")]) (mkServer [1; 2; 3] [])
  = (inl peer_gone,
     mkServer [1; 2; 3]
       [(1, VDict [("type", VStr "step_started")]);
        (2, VDict [("type", VStr "step_started")])])
  /\ ~ In 3 (map fst
               (outbox (snd (broadcast lossy (VDict [("type", VStr "step_started")])
                               (mkServer [1; 2; 3] [])))))
  /\ In 2 (active_connections
             (snd (broadcast lossy (VDict [("type", VStr "step_started")])
                     (mkServer [1; 2; 3] [])))).
Proof.
  split; [reflexivity |]. split.
  - cbn. intros [H | [H | H]]; [discriminate H | discriminate H | exact H].
  - cbn. tauto.
Qed.

(** The loop of [broadcast] from the side of the transport: the sends are
    numbered from the length of the outbox; when the sends to [before] succeed
    and the next one fails, the loop raises there and goes no further. *)
Lemma send_to_each_fails
    (transport : nat -> WebSocket -> value -> option exn) (message : value)
    (before : list WebSocket) (failed : WebSocket) (rest : list WebSocket)
    (e : exn) :
  forall s,
    (forall i c, nth_error before i = Some c ->
                 transport (length (outbox s) + i) c message = None) ->
    transport (length (outbox s) + length before) failed message = Some e ->
    send_to_each transport (before ++ failed :: rest) message s
    = (inl e,
       mkServer (active_connections s)
         (outbox s ++ map (fun c => (c, message)) (before ++ [failed]))).
Proof.
  induction before as [| c before' IH]; intros s Hok Hfail.
  - simpl in *. rewrite Nat.add_0_r in Hfail.
    unfold bind, send_json. rewrite Hfail. reflexivity.
  - simpl. unfold bind, send_json.
    pose proof (Hok 0 c eq_refl) as Hfirst. rewrite Nat.add_0_r in Hfirst.
    rewrite Hfirst.
    rewrite (IH (mkServer (active_connections s) (outbox s ++ [(c, message)]))).
    + simpl. rewrite <- app_assoc. reflexivity.
    + intros i c' Hnth. simpl. rewrite length_app. simpl.
      replace (length (outbox s) + 1 + i) with (length (outbox s) + S i) by lia.
      apply Hok. exact Hnth.
    + simpl. rewrite length_app. simpl.
      replace (length (outbox s) + 1 + length before')
        with (length (outbox s) + length (c :: before')) by (simpl; lia).
      exact Hfail.
Qed.

(** When every send of the loop succeeds, it returns having sent to each
    connection once, in order. *)
Lemma send_to_each_succeeds
    (transport : nat -> WebSocket -> value -> option exn) (message : value)
    (connections : list WebSocket) :
  forall s,
    (forall i c, nth_error connections i = Some c ->
                 transport (length (outbox s) + i) c message = None) ->
    send_to_each transport connections message s
    = (inr tt,
       mkServer (active_connections s)
         (outbox s ++ map (fun c => (c, message)) connections)).
Proof.
  induction connections as [| c rest IH]; intros s Hok.
  - simpl. rewrite app_nil_r. destruct s; reflexivity.
  - simpl. unfold bind, send_json.
    pose proof (Hok 0 c eq_refl) as Hfirst. rewrite Nat.add_0_r in Hfirst.
    rewrite Hfirst.
    rewrite (IH (mkServer (active_connections s) (outbox s ++ [(c, message)]))).
    + simpl. rewrite <- app_assoc. reflexivity.
    + intros i c' Hnth. simpl. rewrite length_app. simpl.
      replace (length (outbox s) + 1 + i) with (length (outbox s) + S i) by lia.
      apply Hok. exact Hnth.
Qed.

(** C3, amended: [broadcast] sends the event to the registered connections
    in their order and never changes the registry. It tries a prefix of the
    registered connections: all of them when it returns; when one send fails,
    that connection is the last one tried, the failure is raised to the
    caller, and the connections after it are not tried.

    Both directions are stated. From the result: a return means every
    registered connection was tried, a raised [e] means the last send tried
    failed with [e]. From the transport: when the sends to the connections
    [before] succeed and the send to the next one, [failed], raises [e], then
    [broadcast] raises [e], has sent to [before] and to [failed] and to no
    connection after it, and [failed] is still registered; when every send
    succeeds, [broadcast] returns and has sent once to each registered
    connection. *)
Theorem broadcast_stops_at_first_failure
    (transport : nat -> WebSocket -> value -> option exn) (message : value)
    (s : Server) :
  active_connections (snd (broadcast transport message s)) = active_connections s
  /\ (exists attempted rest,
       active_connections s = (attempted ++ rest)%list
       /\ outbox (snd (broadcast transport message s))
          = (outbox s ++ map (fun c => (c, message)) attempted)%list
       /\ (fst (broadcast transport message s) = inr tt -> rest = [])
       /\ (forall e,
             fst (broadcast transport message s) = inl e ->
             exists before failed,
               attempted = (before ++ [failed])%list
               /\ transport (length (outbox s) + length before) failed message
                  = Some e))
  /\ (forall before failed rest e,
        active_connections s = (before ++ failed :: rest)%list ->
        (forall i c, nth_error before i = Some c ->
                     transport (length (outbox s) + i) c message = None) ->
        transport (length (outbox s) + length before) failed message = Some e ->
        broadcast transport message s
        = (inl e,
           mkServer (before ++ failed :: rest)
             (outbox s ++ map (fun c => (c, message)) (before ++ [failed]))))
  /\ ((forall i c, nth_error (active_connections s) i = Some c ->
                   transport (length (outbox s) + i) c message = None) ->
      broadcast transport message s
      = (inr tt,
         mkServer (active_connections s)
           (outbox s ++ map (fun c => (c, message)) (active_connections s)))).
Proof.
  unfold broadcast.
  destruct (send_to_each_run transport message (active_connections s) s)
    as (Hreg & Hrun).
  split; [exact Hreg |]. split; [exact Hrun |]. split.
  - intros before failed rest e Hsplit Hok Hfail.
    rewrite Hsplit at 1.
    rewrite (send_to_each_fails transport message before failed rest e s Hok Hfail).
    rewrite Hsplit. reflexivity.
  - intros Hok. apply send_to_each_succeeds. exact Hok.
Qed.

(** The amended C3 on the registry [1, 2, 3] with the send to [2] failing:
    the send to [1] succeeds, the send to [2] raises, and [3] gets nothing. *)
Lemma broadcast_stops_at_first_failure_second :
  active_connections (mkServer [1; 2; 3] []) = ([1] ++ 2 :: [3])%list
  /\ (forall i c, nth_error [1] i = Some c ->
                  lossy (length (outbox (mkServer [1; 2; 3] [])) + i) c
                    (VStr "plan_ready") = None)
  /\ lossy (length (outbox (mkServer [1; 2; 3] [])) + length [1]) 2
       (VStr "plan_ready") = Some peer_gone
  /\ broadcast lossy (VStr "plan_ready") (mkServer [1; 2; 3] [])
     = (inl peer_gone,
        mkServer ([1] ++ 2 :: [3])
          (outbox (mkServer [1; 2; 3] [])
           ++ map (fun c => (c, VStr "plan_ready")) ([1] ++ [2]))).
Proof.
  assert (Hok : forall i c, nth_error [1] i = Some c ->
                  lossy (length (outbox (mkServer [1; 2; 3] [])) + i) c
                    (VStr "plan_ready") = None).
  { intros [| [| i]] c Hnth; simpl in Hnth; try discriminate Hnth.
    injection Hnth as <-. reflexivity. }
  split; [reflexivity |]. split; [exact Hok |]. split; [reflexivity |].
  exact (proj1 (proj2 (proj2 (broadcast_stops_at_first_failure lossy
                                 (VStr "plan_ready") (mkServer [1; 2; 3] []))))
           [1] 2 [3] peer_gone eq_refl Hok eq_refl).
Defined.

(** ** The WebSocket handler *)

Section Handler.

Variable json_loads : string -> exn + value.
Variable transport_send : nat -> WebSocket -> value -> option exn.
Variable transport_accept : WebSocket -> option exn.
Variable websocket : WebSocket.

Lemma connect_run (s : Server) :
  transport_accept websocket = None ->
  connect transport_accept websocket s = (inr tt, joined s websocket).
Proof.
  intros Hacc. unfold connect, bind, accept. rewrite Hacc. reflexivity.
Qed.

(** The loop only adds to the outbox and leaves the registry alone. *)
Lemma receive_loop_grows (inbox : list inbound) :
  forall s,
    active_connections (snd (receive_loop json_loads transport_send websocket inbox s))
    = active_connections s
    /\ exists more,
         outbox (snd (receive_loop json_loads transport_send websocket inbox s))
         = (outbox s ++ more)%list.
Proof.
  induction inbox as [| event rest IH]; intros s.
  - simpl. split; [reflexivity |]. exists []. now rewrite app_nil_r.
  - destruct event as [data now | e]; simpl.
    + unfold bind, lift.
      destruct (json_loads data) as [e | message].
      { simpl. split; [reflexivity |]. exists []. now rewrite app_nil_r. }
      destruct message;
        try (simpl; split; [reflexivity |]; exists []; now rewrite app_nil_r).
      simpl. unfold send_json.
      destruct (transport_send _ _ _).
      * simpl. split; [reflexivity |]. eexists. reflexivity.
      * match goal with
        | |- context [receive_loop _ _ _ rest ?st] =>
            destruct (IH st) as (Hreg & more & Hout)
        end.
        simpl in Hreg, Hout. split; [exact Hreg |].
        rewrite Hout, <- app_assoc. eexists. reflexivity.
    + split; [reflexivity |]. exists []. now rewrite app_nil_r.
Qed.

(** Frames handled without an exception are behind the handler. *)
Lemma receive_loop_app (before after : list inbound) :
  forall s s1,
    receive_loop json_loads transport_send websocket before s = (inr Awaiting, s1) ->
    receive_loop json_loads transport_send websocket (before ++ after) s
    = receive_loop json_loads transport_send websocket after s1.
Proof.
  induction before as [| event rest IH]; intros s s1 Hrun.
  - simpl in Hrun. injection Hrun as <-. reflexivity.
  - destruct event as [data now | e]; simpl in *; [| discriminate Hrun].
    unfold bind, lift in *.
    destruct (json_loads data) as [e | message]; [discriminate Hrun |].
    destruct message; try discriminate Hrun.
    simpl in *. unfold send_json in *.
    destruct (transport_send _ _ _); [discriminate Hrun |].
    apply IH. exact Hrun.
Qed.

Lemma receive_loop_object (data now : string) (rest : list inbound)
    (entries : dict) (s : Server) :
  json_loads data = inr (VDict entries) ->
  exists later,
    outbox (snd (receive_loop json_loads transport_send websocket (Text data now :: rest) s))
    = (outbox s ++ (websocket, VDict (response_to entries now)) :: later)%list.
Proof.
  intros Hload. simpl. unfold bind, lift. rewrite Hload. simpl.
  unfold send_json.
  destruct (transport_send _ _ _).
  - simpl. exists []. reflexivity.
  - match goal with
    | |- context [receive_loop _ _ _ rest ?st] =>
        destruct (receive_loop_grows rest st) as (_ & more & Hout)
    end.
    rewrite Hout. simpl. rewrite <- app_assoc.
    exists more. reflexivity.
Qed.

Lemma endpoint_outbox (inbox : list inbound) (s : Server) :
  transport_accept websocket = None ->
  outbox (snd (websocket_endpoint json_loads transport_send transport_accept
                 websocket inbox s))
  = outbox (snd (receive_loop json_loads transport_send websocket inbox
                   (joined s websocket))).
Proof.
  intros Hacc. unfold websocket_endpoint, bind.
  rewrite (connect_run s Hacc). unfold try_except_disconnect.
  destruct (receive_loop json_loads transport_send websocket inbox
              (joined s websocket)) as [[e | st] s2]; [| reflexivity].
  destruct (is_WebSocketDisconnect e); [| reflexivity].
  simpl. unfold bind.
  pose proof (disconnect_keeps_outbox websocket s2) as Hkeep.
  destruct (disconnect websocket s2) as [[e' | []] s3]; exact Hkeep.
Qed.

End Handler.

(** C8: whenever the handler of a connection, after any number of frames it
    handled without an exception, receives a frame that decodes to an object,
    it sends on that same connection a message whose keys are exactly
    [type], [module], [payload], [timestamp], [id], in this order, and whose
    [id] is the [id] of the inbound object when it has one. *)
Theorem websocket_response_shape
    (json_loads : string -> exn + value)
    (transport_send : nat -> WebSocket -> value -> option exn)
    (transport_accept : WebSocket -> option exn)
    (websocket : WebSocket) (before rest : list inbound) (data now : string)
    (entries : dict) (s s1 : Server) :
  transport_accept websocket = None ->
  receive_loop json_loads transport_send websocket before (joined s websocket)
  = (inr Awaiting, s1) ->
  json_loads data = inr (VDict entries) ->
  exists response later,
    outbox (snd (websocket_endpoint json_loads transport_send transport_accept
                   websocket (before ++ Text data now :: rest) s))
    = (outbox s1 ++ (websocket, VDict response) :: later)%list
    /\ keys response = ["type"; "module"; "payload"; "timestamp"; "id"]
    /\ (forall id, dict_lookup entries "id" = Some id ->
                   dict_lookup response "id" = Some id).
Proof.
  intros Hacc Hbefore Hload.
  destruct (receive_loop_object json_loads transport_send websocket
              data now rest entries s1 Hload) as (later & Hout).
  exists (response_to entries now), later.
  split; [| split].
  - rewrite endpoint_outbox by exact Hacc.
    rewrite (receive_loop_app _ _ _ _ _ _ _ Hbefore). exact Hout.
  - reflexivity.
  - intros id Hid. simpl. unfold dict_get. rewrite Hid. reflexivity.
Qed.

(** C8 at the first frame of connection [1], carrying the id [req-1]. *)
Lemma websocket_response_shape_capture :
  welcoming 1 = None
  /\ receive_loop loads sound 1 [] (joined manager 1) = (inr Awaiting, joined manager 1)
  /\ loads capture_frame = inr (VDict capture_message)
  /\ exists response later,
       outbox (snd (websocket_endpoint loads sound welcoming 1
                      ([] ++ Text capture_frame "2026-01-01T09:00:00" :: []) manager))
       = (outbox (joined manager 1) ++ (1, VDict response) :: later)%list
       /\ keys response = ["type"; "module"; "payload"; "timestamp"; "id"]
       /\ (forall id, dict_lookup capture_message "id" = Some id ->
                      dict_lookup response "id" = Some id).
Proof.
  split; [reflexivity |]. split; [reflexivity |]. split; [reflexivity |].
  exact (websocket_response_shape loads sound welcoming 1 [] [] capture_frame
           "2026-01-01T09:00:00" capture_message manager (joined manager 1)
           eq_refl eq_refl eq_refl).
Defined.

(** C2 fails on the WebSocket handler: when [json.loads] raises on an
    inbound frame, with an exception other than [WebSocketDisconnect], the
    exception leaves [websocket_endpoint] uncaught, and the connection is
    still registered. The HTTP handlers do catch every exception
    ([vision_endpoint_returns] and its siblings). *)
Theorem malformed_frame_escapes
    (json_loads : string -> exn + value)
    (transport_send : nat -> WebSocket -> value -> option exn)
    (transport_accept : WebSocket -> option exn)
    (websocket : WebSocket) (before rest : list inbound) (data now : string)
    (e : exn) (s s1 : Server) :
  transport_accept websocket = None ->
  receive_loop json_loads transport_send websocket before (joined s websocket)
  = (inr Awaiting, s1) ->
  json_loads data = inl e ->
  is_WebSocketDisconnect e = false ->
  websocket_endpoint json_loads transport_send transport_accept websocket
    (before ++ Text data now :: rest) s
  = (inl e, s1)
  /\ In websocket (active_connections s1).
Proof.
  intros Hacc Hbefore Hload Hclass. split.
  - unfold websocket_endpoint, bind. rewrite (connect_run _ _ _ Hacc).
    unfold try_except_disconnect.
    rewrite (receive_loop_app _ _ _ _ _ _ _ Hbefore).
    simpl. unfold bind, lift. rewrite Hload, Hclass. reflexivity.
  - pose proof (receive_loop_grows json_loads transport_send websocket before
                  (joined s websocket)) as (Hreg & _).
    rewrite Hbefore in Hreg. simpl in Hreg. rewrite Hreg.
    apply in_or_app. right. now left.
Qed.

(** The escape at the first frame of connection [1], the text [ping]. *)
Lemma malformed_frame_escapes_ping :
  welcoming 1 = None
  /\ receive_loop loads sound 1 [] (joined manager 1) = (inr Awaiting, joined manager 1)
  /\ loads "ping" = inl expecting_value
  /\ is_WebSocketDisconnect expecting_value = false
  /\ websocket_endpoint loads sound welcoming 1
       ([] ++ Text "ping" "2026-01-01T09:00:00" :: []) manager
     = (inl expecting_value, joined manager 1)
  /\ In 1 (active_connections (joined manager 1)).
Proof.
  split; [reflexivity |]. split; [reflexivity |]. split; [reflexivity |].
  split; [reflexivity |].
  exact (malformed_frame_escapes loads sound welcoming 1 [] [] "ping"
           "2026-01-01T09:00:00" expecting_value manager (joined manager 1)
           eq_refl eq_refl eq_refl eq_refl).
Defined.

(** A frame that is JSON but not an object fails one line further, at
    [message.get], and escapes in the same way. *)
Example array_frame_escapes :
  websocket_endpoint loads sound welcoming 1 [Text "[]" "2026-01-01T09:00:00"] manager
  = (inl (mkExn AttributeError "'list' object has no attribute 'get'"),
     joined manager 1).
Proof. reflexivity. Qed.

(** A disconnect is caught: the handler unregisters the connection and
    returns. *)
Example disconnect_is_handled :
  websocket_endpoint loads sound welcoming 1
    [Text capture_frame "2026-01-01T09:00:00";
     ReceiveRaises (mkExn WebSocketDisconnect "1000")] manager
  = (inr Returned,
     mkServer [] [(1, VDict (response_to capture_message "2026-01-01T09:00:00"))]).
Proof. reflexivity. Qed.

(** * Further properties of the handlers *)

(** ** Statelessness of the HTTP handlers *)

Lemma stateless_ret {A} (a : A) : stateless (ret a).
Proof. intros s. reflexivity. Qed.

Lemma stateless_lift {A} (r : exn + A) : stateless (lift r).
Proof. intros s. reflexivity. Qed.

Lemma stateless_bind {A B} (m : M A) (k : A -> M B) :
  stateless m -> (forall a, stateless (k a)) -> stateless (bind m k).
Proof.
  intros Hm Hk s. unfold bind.
  pose proof (Hm s) as Hs. destruct (m s) as [[e | a] s']; simpl in Hs; subst s'.
  - reflexivity.
  - apply Hk.
Qed.

Lemma stateless_try_except {A} (body : M A) (handler : exn -> M A) :
  stateless body -> (forall e, stateless (handler e)) ->
  stateless (try_except body handler).
Proof.
  intros Hb Hh s. unfold try_except.
  pose proof (Hb s) as Hs. destruct (body s) as [[e | a] s']; simpl in Hs; subst s'.
  - apply Hh.
  - reflexivity.
Qed.

Lemma stateless_fstring (py_str : value -> exn + string) (pieces : list piece) :
  stateless (fstring py_str pieces).
Proof.
  induction pieces as [| [text | v] rest IH]; simpl.
  - apply stateless_ret.
  - apply stateless_bind; [exact IH | intros; apply stateless_ret].
  - apply stateless_bind; [apply stateless_lift |].
    intros shown. apply stateless_bind; [exact IH | intros; apply stateless_ret].
Qed.

Ltac stateless_step :=
  match goal with
  | |- stateless (if ?b then _ else _) => destruct b
  | |- stateless (try_except _ _) => apply stateless_try_except
  | |- stateless (bind _ _) => apply stateless_bind
  | |- stateless (fstring _ _) => apply stateless_fstring
  | |- stateless (ret _) => apply stateless_ret
  | |- forall _, _ => intro
  end.

(** X1: none of the five HTTP handlers, nor the health check, changes the
    connection registry or sends anything to a connection, whatever the
    request and whatever [str] does. *)
Theorem http_handlers_are_stateless (py_str : value -> exn + string) :
  (forall request, stateless (vision_endpoint request))
  /\ (forall request, stateless (actions_endpoint py_str request))
  /\ (forall request, stateless (planner_endpoint request))
  /\ (forall request, stateless (agent_endpoint request))
  /\ (forall request, stateless (agent_chat_endpoint request))
  /\ (forall now, stateless (health_check now)).
Proof.
  split; [| split; [| split; [| split; [| split]]]]; intros request.
  - unfold vision_endpoint. repeat stateless_step.
  - unfold actions_endpoint. cbv zeta. repeat stateless_step.
  - unfold planner_endpoint. repeat stateless_step.
  - unfold agent_endpoint. repeat stateless_step.
  - unfold agent_chat_endpoint. repeat stateless_step.
  - unfold health_check. apply stateless_ret.
Qed.

(** ** Vision *)

Lemma eqb_false_of_not_in (name : string) (vocabulary : list string) :
  ~ In name vocabulary ->
  forall known, In known vocabulary -> (name =? known) = false.
Proof.
  intros Hout known Hin. apply String.eqb_neq. intros Heq. apply Hout.
  rewrite Heq. exact Hin.
Qed.

(** X2: for an action outside [capture_screen, analyze_image, find_element,
    ocr] the vision handler returns
    [{success: false, error: "Ação desconhecida: " + action}]; it does not
    raise. *)
Theorem vision_unknown_action (request : VisionRequest.t) (s : Server) :
  ~ In (VisionRequest.action request) vision_vocabulary ->
  vision_endpoint request s
  = (inr (failure ("Ação desconhecida: " ++ VisionRequest.action request)), s).
Proof.
  intros Hout.
  pose proof (eqb_false_of_not_in _ _ Hout) as Hne.
  unfold vision_endpoint, try_except.
  rewrite (Hne "capture_screen"), (Hne "analyze_image"), (Hne "find_element"),
    (Hne "ocr") by (simpl; tauto).
  reflexivity.
Qed.

(** X2 at the action [zoom]. *)
Lemma vision_unknown_action_zoom :
  ~ In (VisionRequest.action (VisionRequest.mk "zoom" None)) vision_vocabulary
  /\ vision_endpoint (VisionRequest.mk "zoom" None) manager
     = (inr (failure ("Ação desconhecida: "
                      ++ VisionRequest.action (VisionRequest.mk "zoom" None))),
        manager).
Proof.
  assert (Hout : ~ In (VisionRequest.action (VisionRequest.mk "zoom" None))
                      vision_vocabulary).
  { simpl. intros H. repeat (destruct H as [H | H]; [discriminate H |]). exact H. }
  split; [exact Hout | exact (vision_unknown_action _ manager Hout)].
Defined.

(** X3: the vision handler answers a dictionary whose keys are
    [success, data] with [success: true] when the action is one of the four
    it knows, and [success, error] with [success: false] otherwise; matching
    is exact and case-sensitive. *)
Theorem vision_success_iff_known (request : VisionRequest.t) (s : Server) :
  exists body,
    vision_endpoint request s = (inr (VDict body), s)
    /\ dict_lookup body "success"
       = Some (VBool (existsb (String.eqb (VisionRequest.action request))
                              vision_vocabulary))
    /\ keys body
       = if existsb (String.eqb (VisionRequest.action request)) vision_vocabulary
         then ["success"; "data"] else ["success"; "error"].
Proof.
  unfold vision_endpoint, try_except, vision_vocabulary. simpl existsb.
  destruct (VisionRequest.action request =? "capture_screen");
    [eexists; repeat split |].
  destruct (VisionRequest.action request =? "analyze_image");
    [eexists; repeat split |].
  destruct (VisionRequest.action request =? "find_element");
    [eexists; repeat split |].
  destruct (VisionRequest.action request =? "ocr");
    eexists; repeat split.
Qed.

(** ** Actions *)

Lemma fstring_total (py_str : value -> exn + string) :
  (forall v, exists shown, py_str v = inr shown) ->
  forall pieces s, exists text, fstring py_str pieces s = (inr text, s).
Proof.
  intros Htotal pieces s.
  induction pieces as [| [text | v] rest (tail & IH)]; simpl.
  - now eexists.
  - unfold bind. rewrite IH. now eexists.
  - unfold bind, lift. destruct (Htotal v) as (shown & ->). rewrite IH.
    now eexists.
Qed.

Lemma reply_outcome (text : M string) (s : Server) :
  stateless text ->
  (exists message,
     try_except
       (message <- text ;;
        ret (VDict [("success", VBool true); ("message", VStr message)]))
       (fun e => ret (failure (exn_text e))) s
     = (inr (VDict [("success", VBool true); ("message", VStr message)]), s))
  \/ (exists e,
        text s = (inl e, s)
        /\ try_except
             (message <- text ;;
              ret (VDict [("success", VBool true); ("message", VStr message)]))
             (fun e => ret (failure (exn_text e))) s
           = (inr (failure (exn_text e)), s)).
Proof.
  intros Hpure. unfold try_except, bind.
  pose proof (Hpure s) as Hs.
  destruct (text s) as [[e | message] s']; simpl in Hs; subst s'.
  - right. exists e. split; reflexivity.
  - left. exists message. reflexivity.
Qed.

(** X4: whatever [str] does, the actions handler answers either
    [{success: true, message: ...}] or [{success: false, error: ...}], and
    nothing else: it never raises and never mixes the two. *)
Theorem actions_response_shape
    (py_str : value -> exn + string) (request : ActionRequest.t) (s : Server) :
  (exists message,
     actions_endpoint py_str request s
     = (inr (VDict [("success", VBool true); ("message", VStr message)]), s))
  \/ (exists text, actions_endpoint py_str request s = (inr (failure text), s)).
Proof.
  assert (Hreply : forall pieces,
    (exists message,
       try_except
         (message <- fstring py_str pieces ;;
          ret (VDict [("success", VBool true); ("message", VStr message)]))
         (fun e => ret (failure (exn_text e))) s
       = (inr (VDict [("success", VBool true); ("message", VStr message)]), s))
    \/ (exists text,
          try_except
            (message <- fstring py_str pieces ;;
             ret (VDict [("success", VBool true); ("message", VStr message)]))
            (fun e => ret (failure (exn_text e))) s
          = (inr (failure text), s))).
  { intros pieces.
    destruct (reply_outcome (fstring py_str pieces) s (stateless_fstring _ _))
      as [Hok | (e & _ & Hfail)]; [left; exact Hok | right; eexists; exact Hfail]. }
  unfold actions_endpoint. cbv zeta.
  destruct (ActionRequest.action request =? "click"); [apply Hreply |].
  destruct (ActionRequest.action request =? "type"); [apply Hreply |].
  destruct (ActionRequest.action request =? "scroll"); [apply Hreply |].
  destruct (ActionRequest.action request =? "hotkey"); [apply Hreply |].
  destruct (ActionRequest.action request =? "move_mouse"); [apply Hreply |].
  destruct (ActionRequest.action request =? "drag").
  - left. eexists. reflexivity.
  - right. eexists. reflexivity.
Qed.

Lemma str_total (v : value) : exists shown, str v = inr shown.
Proof. destruct v; now eexists. Qed.

(** X5: when [str] never raises, the actions handler reports
    [success: true] with a [message] exactly for the six actions it knows,
    and [success: false] with an [error] for every other action name. *)
Theorem actions_success_iff_known
    (py_str : value -> exn + string) (request : ActionRequest.t) (s : Server) :
  (forall v, exists shown, py_str v = inr shown) ->
  exists body,
    actions_endpoint py_str request s = (inr (VDict body), s)
    /\ dict_lookup body "success"
       = Some (VBool (existsb (String.eqb (ActionRequest.action request))
                              action_vocabulary))
    /\ keys body
       = if existsb (String.eqb (ActionRequest.action request)) action_vocabulary
         then ["success"; "message"] else ["success"; "error"].
Proof.
  intros Htotal.
  assert (Hreply : forall pieces, exists message,
    try_except
      (message <- fstring py_str pieces ;;
       ret (VDict [("success", VBool true); ("message", VStr message)]))
      (fun e => ret (failure (exn_text e))) s
    = (inr (VDict [("success", VBool true); ("message", VStr message)]), s)).
  { intros pieces. destruct (fstring_total py_str Htotal pieces s) as (text & Htext).
    exists text. unfold try_except, bind. rewrite Htext. reflexivity. }
  unfold actions_endpoint, action_vocabulary. cbv zeta. simpl existsb.
  destruct (ActionRequest.action request =? "click");
    [destruct (Hreply [Lit "Clique em (";
                       Field (dict_get (ActionRequest.data request) "x" VNone);
                       Lit ", ";
                       Field (dict_get (ActionRequest.data request) "y" VNone);
                       Lit ")"]) as (m & ->); eexists; repeat split |].
  destruct (ActionRequest.action request =? "type");
    [destruct (Hreply [Lit "Digitado: ";
                       Field (dict_get (ActionRequest.data request) "text" VNone)])
       as (m & ->); eexists; repeat split |].
  destruct (ActionRequest.action request =? "scroll");
    [destruct (Hreply [Lit "Scroll ";
                       Field (dict_get (ActionRequest.data request) "direction" VNone)])
       as (m & ->); eexists; repeat split |].
  destruct (ActionRequest.action request =? "hotkey");
    [destruct (Hreply [Lit "Atalho: ";
                       Field (dict_get (ActionRequest.data request) "keys" VNone)])
       as (m & ->); eexists; repeat split |].
  destruct (ActionRequest.action request =? "move_mouse");
    [destruct (Hreply [Lit "Mouse movido para (";
                       Field (dict_get (ActionRequest.data request) "x" VNone);
                       Lit ", ";
                       Field (dict_get (ActionRequest.data request) "y" VNone);
                       Lit ")"]) as (m & ->); eexists; repeat split |].
  destruct (ActionRequest.action request =? "drag"); eexists; repeat split.
Qed.

(** X5 with the interpreter's [str], at a scroll request. *)
Lemma actions_success_iff_known_scroll :
  (forall v, exists shown, str v = inr shown)
  /\ exists body,
       actions_endpoint str (ActionRequest.mk "scroll" [("direction", VStr "up")])
         manager
       = (inr (VDict body), manager)
       /\ dict_lookup body "success"
          = Some (VBool (existsb (String.eqb "scroll") action_vocabulary))
       /\ keys body
          = if existsb (String.eqb "scroll") action_vocabulary
            then ["success"; "message"] else ["success"; "error"].
Proof.
  split; [exact str_total |].
  exact (actions_success_iff_known str
           (ActionRequest.mk "scroll" [("direction", VStr "up")]) manager str_total).
Defined.

(** X6: a click whose data has neither [x] nor [y] still succeeds: the
    message shows [str(None)] for both coordinates. *)
Theorem click_without_coordinates
    (py_str : value -> exn + string) (data : dict) (shown : string) (s : Server) :
  dict_lookup data "x" = None ->
  dict_lookup data "y" = None ->
  py_str VNone = inr shown ->
  actions_endpoint py_str (ActionRequest.mk "click" data) s
  = (inr (VDict [("success", VBool true);
                 ("message",
                  VStr ("Clique em (" ++ shown ++ ", " ++ shown ++ ")"))]), s).
Proof.
  intros Hx Hy Hnone.
  unfold actions_endpoint, try_except. cbn -[String.append].
  unfold dict_get. rewrite Hx, Hy.
  unfold bind, lift. rewrite Hnone. reflexivity.
Qed.

(** X6 for a click whose data only names a button. *)
Lemma click_without_coordinates_button :
  dict_lookup [("button", VStr "left")] "x" = None
  /\ dict_lookup [("button", VStr "left")] "y" = None
  /\ str VNone = inr "None"
  /\ actions_endpoint str (ActionRequest.mk "click" [("button", VStr "left")]) manager
     = (inr (VDict [("success", VBool true);
                    ("message", VStr ("Clique em (" ++ "None" ++ ", " ++ "None" ++ ")"))]),
        manager).
Proof.
  split; [reflexivity |]. split; [reflexivity |]. split; [reflexivity |].
  exact (click_without_coordinates str [("button", VStr "left")] "None" manager
           eq_refl eq_refl eq_refl).
Defined.

(** ** Planner, agent, chat *)

(** X7: the planner's answer depends on the goal only, the agent's and the
    chat's on the command only: [mode] ([auto], [confirm], [plan_only], or
    anything else) and [context] (absent, empty, with or without a
    conversation history) never change the answer. *)
Theorem answers_ignore_mode_and_context :
  (forall goal context1 context2 s,
     planner_endpoint (PlannerRequest.mk goal context1) s
     = planner_endpoint (PlannerRequest.mk goal context2) s)
  /\ (forall command mode1 mode2 context1 context2 s,
        agent_endpoint (AgentRequest.mk command mode1 context1) s
        = agent_endpoint (AgentRequest.mk command mode2 context2) s)
  /\ (forall command mode1 mode2 context1 context2 s,
        agent_chat_endpoint (AgentRequest.mk command mode1 context1) s
        = agent_chat_endpoint (AgentRequest.mk command mode2 context2) s
        /\ agent_chat_endpoint (AgentRequest.mk command mode1 context1) s
           = (inr (VDict [("success", VBool true);
                          ("response", VStr ("Olá! Você disse: " ++ command))]), s)).
Proof.
  split; [| split].
  - intros. reflexivity.
  - intros. reflexivity.
  - intros. split; reflexivity.
Qed.

(** ** Registry: connecting and disconnecting *)

Lemma list_remove_app_last (x : WebSocket) (l : list WebSocket) :
  ~ In x l -> list_remove x (l ++ [x]) = Some l.
Proof.
  induction l as [| y rest IH]; simpl; intros Hout.
  - now rewrite Nat.eqb_refl.
  - destruct (Nat.eqb_spec y x) as [-> | Hne].
    + exfalso. apply Hout. now left.
    + rewrite IH; [reflexivity | tauto].
Qed.

Lemma list_remove_count (x : WebSocket) (l l' : list WebSocket) :
  list_remove x l = Some l' ->
  forall c,
    count_occ Nat.eq_dec l c
    = count_occ Nat.eq_dec l' c + (if Nat.eq_dec x c then 1 else 0).
Proof.
  revert l'. induction l as [| y rest IH]; simpl; intros l' Hrem c.
  - discriminate Hrem.
  - destruct (Nat.eqb_spec y x) as [-> | Hne].
    + injection Hrem as <-.
      destruct (Nat.eq_dec x c); lia.
    + destruct (list_remove x rest) as [rest' |]; [| discriminate Hrem].
      injection Hrem as <-. simpl.
      specialize (IH rest' eq_refl c).
      destruct (Nat.eq_dec y c); destruct (Nat.eq_dec x c); lia.
Qed.

(** X8: registering a connection that was not registered and then
    unregistering it gives back the server exactly as it was: same registry,
    in the same order, and nothing sent. *)
Theorem connect_then_disconnect
    (transport_accept : WebSocket -> option exn) (websocket : WebSocket)
    (s : Server) :
  transport_accept websocket = None ->
  ~ In websocket (active_connections s) ->
  (connect transport_accept websocket ;; disconnect websocket) s = (inr tt, s).
Proof.
  intros Hacc Hout. unfold bind.
  rewrite (connect_run transport_accept websocket s Hacc).
  unfold disconnect, joined. simpl.
  rewrite (list_remove_app_last _ _ Hout). destruct s; reflexivity.
Qed.

(** X8 with connection [3] joining a registry that holds [1] and [2]. *)
Lemma connect_then_disconnect_third :
  welcoming 3 = None
  /\ ~ In 3 (active_connections (mkServer [1; 2] []))
  /\ (connect welcoming 3 ;; disconnect 3) (mkServer [1; 2] [])
     = (inr tt, mkServer [1; 2] []).
Proof.
  assert (Hout : ~ In 3 (active_connections (mkServer [1; 2] []))).
  { simpl. intros [H | [H | H]]; [discriminate H | discriminate H | exact H]. }
  split; [reflexivity |]. split; [exact Hout |].
  exact (connect_then_disconnect welcoming 3 (mkServer [1; 2] []) eq_refl Hout).
Defined.

(** X9: unregistering removes one registration only. Whatever the registry
    holds, after [disconnect] succeeds the connection is counted once less
    and every other connection as often as before. *)
Theorem disconnect_removes_one (websocket : WebSocket) (s s' : Server) :
  disconnect websocket s = (inr tt, s') ->
  outbox s' = outbox s
  /\ forall c,
       count_occ Nat.eq_dec (active_connections s) c
       = count_occ Nat.eq_dec (active_connections s') c
         + (if Nat.eq_dec websocket c then 1 else 0).
Proof.
  unfold disconnect.
  destruct (list_remove websocket (active_connections s)) as [remaining |] eqn:Hrem;
    intros Hrun; [| discriminate Hrun].
  injection Hrun as <-. simpl. split; [reflexivity |].
  apply list_remove_count. exact Hrem.
Qed.

(** X9 with connection [7] registered twice. *)
Lemma disconnect_removes_one_of_two :
  disconnect 7 (mkServer [7; 4; 7] []) = (inr tt, mkServer [4; 7] [])
  /\ outbox (mkServer [4; 7] []) = outbox (mkServer [7; 4; 7] [])
  /\ forall c,
       count_occ Nat.eq_dec (active_connections (mkServer [7; 4; 7] [])) c
       = count_occ Nat.eq_dec (active_connections (mkServer [4; 7] [])) c
         + (if Nat.eq_dec 7 c then 1 else 0).
Proof.
  split; [reflexivity |].
  exact (disconnect_removes_one 7 (mkServer [7; 4; 7] []) (mkServer [4; 7] [])
           eq_refl).
Defined.

(** X10 at the second of three connections. *)
Lemma disconnect_present_second :
  In 2 (active_connections (mkServer [1; 2; 3] []))
  /\ exists before after,
       active_connections (mkServer [1; 2; 3] []) = (before ++ 2 :: after)%list
       /\ ~ In 2 before
       /\ disconnect 2 (mkServer [1; 2; 3] [])
          = (inr tt, mkServer (before ++ after) (outbox (mkServer [1; 2; 3] []))).
Proof.
  assert (Hin : In 2 (active_connections (mkServer [1; 2; 3] []))).
  { simpl. right. left. reflexivity. }
  split; [exact Hin | exact (disconnect_present 2 (mkServer [1; 2; 3] []) Hin)].
Defined.

(** X11: when the handshake fails, [websocket_endpoint] raises that
    exception, whatever its class and whatever frames would follow: the
    connection is not registered and nothing is sent. *)
Theorem failed_handshake_escapes
    (json_loads : string -> exn + value)
    (transport_send : nat -> WebSocket -> value -> option exn)
    (transport_accept : WebSocket -> option exn)
    (websocket : WebSocket) (inbox : list inbound) (e : exn) (s : Server) :
  transport_accept websocket = Some e ->
  websocket_endpoint json_loads transport_send transport_accept websocket inbox s
  = (inl e, s).
Proof.
  intros Hacc. unfold websocket_endpoint, connect, accept, bind.
  rewrite Hacc. reflexivity.
Qed.

(** X11 with a handshake that ends in [WebSocketDisconnect]. *)
Lemma failed_handshake_escapes_hung_up :
  (fun _ : WebSocket => Some hung_up_error) 1 = Some hung_up_error
  /\ websocket_endpoint loads sound (fun _ => Some hung_up_error) 1
       [Text capture_frame "2026-01-01T09:00:00"] manager
     = (inl hung_up_error, manager).
Proof.
  split; [reflexivity |].
  exact (failed_handshake_escapes loads sound (fun _ => Some hung_up_error) 1
           [Text capture_frame "2026-01-01T09:00:00"] hung_up_error manager eq_refl).
Defined.

(** ** The WebSocket handler, frame by frame *)

Section Session.

Variable json_loads : string -> exn + value.
Variable transport_send : nat -> WebSocket -> value -> option exn.
Variable transport_accept : WebSocket -> option exn.
Variable websocket : WebSocket.

(** The loop never returns: it is suspended or it raises. *)
Lemma receive_loop_never_returns (inbox : list inbound) :
  forall s st s',
    receive_loop json_loads transport_send websocket inbox s = (inr st, s') ->
    st = Awaiting.
Proof.
  induction inbox as [| event rest IH]; intros s st s' Hrun.
  - simpl in Hrun. injection Hrun as <- _. reflexivity.
  - destruct event as [data now | e]; simpl in Hrun; [| discriminate Hrun].
    unfold bind, lift in Hrun.
    destruct (json_loads data) as [e | message]; [discriminate Hrun |].
    destruct message; try discriminate Hrun.
    simpl in Hrun. unfold send_json in Hrun.
    destruct (transport_send _ _ _); [discriminate Hrun |].
    exact (IH _ _ _ Hrun).
Qed.

(** What the loop sends goes to its own connection, at most one message per
    text frame. *)
Lemma receive_loop_sends (inbox : list inbound) :
  forall s, exists more,
    outbox (snd (receive_loop json_loads transport_send websocket inbox s))
    = (outbox s ++ more)%list
    /\ Forall (fun sent => fst sent = websocket) more
    /\ length more <= text_count inbox.
Proof.
  induction inbox as [| event rest IH]; intros s.
  - exists []. simpl. rewrite app_nil_r. repeat split; [constructor | lia].
  - destruct event as [data now | e]; simpl.
    + unfold bind, lift.
      destruct (json_loads data) as [e | message].
      { exists []. simpl. rewrite app_nil_r. repeat split; [constructor | lia]. }
      destruct message;
        try (exists []; simpl; rewrite app_nil_r; repeat split; [constructor | lia]).
      simpl. unfold send_json.
      destruct (transport_send _ _ _).
      * simpl. eexists. split; [reflexivity |]. split.
        -- constructor; [reflexivity | constructor].
        -- unfold text_count. simpl. lia.
      * match goal with
        | |- context [receive_loop _ _ _ rest ?st] =>
            destruct (IH st) as (more & Hout & Hown & Hlen)
        end.
        simpl in Hout. rewrite Hout, <- app_assoc.
        eexists. split; [reflexivity |]. split.
        -- constructor; [reflexivity | exact Hown].
        -- unfold text_count in *. simpl. lia.
    + exists []. simpl. rewrite app_nil_r. repeat split; [constructor | lia].
Qed.

(** A run of frames that decode to objects, on a transport that delivers,
    is answered frame by frame. *)
Lemma receive_loop_frames (frames : list frame) (tail : list inbound) :
  (forall n message, transport_send n websocket message = None) ->
  Forall (fun f => json_loads (frame_data f) = inr (VDict (frame_entries f))) frames ->
  forall s,
    receive_loop json_loads transport_send websocket (texts frames ++ tail) s
    = receive_loop json_loads transport_send websocket tail
        (mkServer (active_connections s) (outbox s ++ answers websocket frames)).
Proof.
  intros Hsend Hframes. induction Hframes as [| f rest Hf _ IH]; intros s.
  - simpl. rewrite app_nil_r. destruct s; reflexivity.
  - simpl. unfold bind at 1. unfold lift. rewrite Hf. simpl.
    unfold bind, ret, send_json. simpl. rewrite Hsend.
    rewrite IH. simpl. rewrite <- app_assoc. reflexivity.
Qed.

End Session.

(** X12: a whole session. A connection that was not registered joins, sends
    any number of frames that decode to objects, every answer being
    delivered, and then disconnects: the handler returns, the registry is
    what it was before the session, and the connection got one answer per
    frame, in the order of the frames. *)
Theorem session_answers_every_frame
    (json_loads : string -> exn + value)
    (transport_send : nat -> WebSocket -> value -> option exn)
    (transport_accept : WebSocket -> option exn)
    (websocket : WebSocket) (frames : list frame) (e : exn) (s : Server) :
  transport_accept websocket = None ->
  ~ In websocket (active_connections s) ->
  (forall n message, transport_send n websocket message = None) ->
  Forall (fun f => json_loads (frame_data f) = inr (VDict (frame_entries f))) frames ->
  is_WebSocketDisconnect e = true ->
  websocket_endpoint json_loads transport_send transport_accept websocket
    (texts frames ++ [ReceiveRaises e]) s
  = (inr Returned,
     mkServer (active_connections s) (outbox s ++ answers websocket frames)).
Proof.
  intros Hacc Hout Hsend Hframes Hclass.
  unfold websocket_endpoint, bind. rewrite (connect_run _ _ _ Hacc).
  unfold try_except_disconnect.
  rewrite (receive_loop_frames json_loads transport_send websocket frames
             [ReceiveRaises e] Hsend Hframes).
  simpl. rewrite Hclass. unfold disconnect. simpl.
  rewrite (list_remove_app_last _ _ Hout). reflexivity.
Qed.

(** X12 with two frames on connection [1]. *)
Lemma session_answers_every_frame_twice :
  welcoming 1 = None
  /\ ~ In 1 (active_connections manager)
  /\ (forall n message, sound n 1 message = None)
  /\ Forall (fun f => loads (frame_data f) = inr (VDict (frame_entries f)))
        [(capture_frame, "2026-01-01T09:00:00", capture_message);
         (capture_frame, "2026-01-01T09:00:05", capture_message)]
  /\ is_WebSocketDisconnect (mkExn WebSocketDisconnect "1000") = true
  /\ websocket_endpoint loads sound welcoming 1
       (texts [(capture_frame, "2026-01-01T09:00:00", capture_message);
               (capture_frame, "2026-01-01T09:00:05", capture_message)]
        ++ [ReceiveRaises (mkExn WebSocketDisconnect "1000")]) manager
     = (inr Returned,
        mkServer (active_connections manager)
          (outbox manager
           ++ answers 1 [(capture_frame, "2026-01-01T09:00:00", capture_message);
                         (capture_frame, "2026-01-01T09:00:05", capture_message)])).
Proof.
  assert (Hout : ~ In 1 (active_connections manager)) by (simpl; tauto).
  assert (Hsend : forall n message, sound n 1 message = None) by reflexivity.
  assert (Hframes :
    Forall (fun f => loads (frame_data f) = inr (VDict (frame_entries f)))
      [(capture_frame, "2026-01-01T09:00:00", capture_message);
       (capture_frame, "2026-01-01T09:00:05", capture_message)]).
  { repeat constructor. }
  split; [reflexivity |]. split; [exact Hout |]. split; [exact Hsend |].
  split; [exact Hframes |]. split; [reflexivity |].
  exact (session_answers_every_frame loads sound welcoming 1 _
           (mkExn WebSocketDisconnect "1000") manager
           eq_refl Hout Hsend Hframes eq_refl).
Defined.

(** X13: the handler answers an object frame with its own bookkeeping, not
    with the payload: [type] is [response], [payload] is
    [{status: "received", original: <the inbound object>}], [timestamp] is the
    clock reading; [module] is echoed, or [system] when the object has none;
    [id] is [None] when the object has none. *)
Theorem websocket_response_contents
    (json_loads : string -> exn + value)
    (transport_send : nat -> WebSocket -> value -> option exn)
    (transport_accept : WebSocket -> option exn)
    (websocket : WebSocket) (before rest : list inbound) (data now : string)
    (entries : dict) (s s1 : Server) :
  transport_accept websocket = None ->
  receive_loop json_loads transport_send websocket before (joined s websocket)
  = (inr Awaiting, s1) ->
  json_loads data = inr (VDict entries) ->
  exists response later,
    outbox (snd (websocket_endpoint json_loads transport_send transport_accept
                   websocket (before ++ Text data now :: rest) s))
    = (outbox s1 ++ (websocket, VDict response) :: later)%list
    /\ dict_lookup response "type" = Some (VStr "response")
    /\ dict_lookup response "payload"
       = Some (VDict [("status", VStr "received"); ("original", VDict entries)])
    /\ dict_lookup response "timestamp" = Some (VStr now)
    /\ (forall module, dict_lookup entries "module" = Some module ->
                       dict_lookup response "module" = Some module)
    /\ (dict_lookup entries "module" = None ->
        dict_lookup response "module" = Some (VStr "system"))
    /\ (dict_lookup entries "id" = None ->
        dict_lookup response "id" = Some VNone).
Proof.
  intros Hacc Hbefore Hload.
  destruct (receive_loop_object json_loads transport_send websocket
              data now rest entries s1 Hload) as (later & Hout).
  exists (response_to entries now), later.
  split.
  - rewrite endpoint_outbox by exact Hacc.
    rewrite (receive_loop_app _ _ _ _ _ _ _ Hbefore). exact Hout.
  - simpl. unfold dict_get.
    repeat split; try (intros module Hm; now rewrite Hm); intros Hm; now rewrite Hm.
Qed.

(** X13 at an empty object, the first frame of connection [1]. *)
Lemma websocket_response_contents_empty_object :
  welcoming 1 = None
  /\ receive_loop loads_bare sound 1 [] (joined manager 1)
     = (inr Awaiting, joined manager 1)
  /\ loads_bare "{}" = inr (VDict [])
  /\ exists response later,
       outbox (snd (websocket_endpoint loads_bare sound welcoming 1
                      ([] ++ Text "{}" "2026-01-01T09:00:00" :: []) manager))
       = (outbox (joined manager 1) ++ (1, VDict response) :: later)%list
       /\ dict_lookup response "type" = Some (VStr "response")
       /\ dict_lookup response "payload"
          = Some (VDict [("status", VStr "received"); ("original", VDict [])])
       /\ dict_lookup response "timestamp" = Some (VStr "2026-01-01T09:00:00")
       /\ (forall module, dict_lookup [] "module" = Some module ->
                          dict_lookup response "module" = Some module)
       /\ (dict_lookup [] "module" = None ->
           dict_lookup response "module" = Some (VStr "system"))
       /\ (dict_lookup [] "id" = None ->
           dict_lookup response "id" = Some VNone).
Proof.
  split; [reflexivity |]. split; [reflexivity |]. split; [reflexivity |].
  exact (websocket_response_contents loads_bare sound welcoming 1
           [] [] "{}" "2026-01-01T09:00:00" [] manager (joined manager 1)
           eq_refl eq_refl eq_refl).
Defined.

(** X14: a frame that is JSON but not an object (null, a boolean, a number,
    a string, an array) makes the handler raise [AttributeError] at
    [message.get]; the exception leaves [websocket_endpoint], nothing is sent
    for that frame and the frames after it are not read. *)
Theorem non_object_frame_escapes
    (json_loads : string -> exn + value)
    (transport_send : nat -> WebSocket -> value -> option exn)
    (transport_accept : WebSocket -> option exn)
    (websocket : WebSocket) (before rest : list inbound) (data now : string)
    (message : value) (s s1 : Server) :
  transport_accept websocket = None ->
  receive_loop json_loads transport_send websocket before (joined s websocket)
  = (inr Awaiting, s1) ->
  json_loads data = inr message ->
  (forall entries, message <> VDict entries) ->
  websocket_endpoint json_loads transport_send transport_accept websocket
    (before ++ Text data now :: rest) s
  = (inl (mkExn AttributeError
            ("'" ++ type_name message ++ "' object has no attribute 'get'")),
     s1).
Proof.
  intros Hacc Hbefore Hload Hkind.
  unfold websocket_endpoint, bind. rewrite (connect_run _ _ _ Hacc).
  unfold try_except_disconnect.
  rewrite (receive_loop_app _ _ _ _ _ _ _ Hbefore).
  simpl. unfold bind, lift. rewrite Hload.
  destruct message; try reflexivity.
  exfalso. exact (Hkind _ eq_refl).
Qed.

(** X14 at the frame [[]] following an answered frame. *)
Lemma non_object_frame_escapes_array :
  welcoming 1 = None
  /\ receive_loop loads sound 1 [Text capture_frame "2026-01-01T09:00:00"]
       (joined manager 1)
     = (inr Awaiting,
        mkServer [1] [(1, VDict (response_to capture_message "2026-01-01T09:00:00"))])
  /\ loads "[]" = inr (VList [])
  /\ (forall entries, VList [] <> VDict entries)
  /\ websocket_endpoint loads sound welcoming 1
       ([Text capture_frame "2026-01-01T09:00:00"]
        ++ Text "[]" "2026-01-01T09:00:05" :: []) manager
     = (inl (mkExn AttributeError
               ("'" ++ type_name (VList []) ++ "' object has no attribute 'get'")),
        mkServer [1] [(1, VDict (response_to capture_message "2026-01-01T09:00:00"))]).
Proof.
  assert (Hkind : forall entries, VList [] <> VDict entries)
    by (intros entries H; discriminate H).
  split; [reflexivity |]. split; [reflexivity |]. split; [reflexivity |].
  split; [exact Hkind |].
  exact (non_object_frame_escapes loads sound welcoming 1
           [Text capture_frame "2026-01-01T09:00:00"] [] "[]" "2026-01-01T09:00:05"
           (VList []) manager _ eq_refl eq_refl eq_refl Hkind).
Defined.

(** X15: when the peer has gone and sending the answer raises
    [WebSocketDisconnect], the handler treats it as a disconnect: it
    unregisters the connection and returns; the frames after it are not
    read. *)
Theorem send_disconnect_is_handled
    (json_loads : string -> exn + value)
    (transport_send : nat -> WebSocket -> value -> option exn)
    (transport_accept : WebSocket -> option exn)
    (websocket : WebSocket) (rest : list inbound) (data now : string)
    (entries : dict) (e : exn) (s : Server) :
  transport_accept websocket = None ->
  ~ In websocket (active_connections s) ->
  json_loads data = inr (VDict entries) ->
  transport_send (length (outbox s)) websocket (VDict (response_to entries now))
  = Some e ->
  is_WebSocketDisconnect e = true ->
  websocket_endpoint json_loads transport_send transport_accept websocket
    (Text data now :: rest) s
  = (inr Returned,
     mkServer (active_connections s)
       (outbox s ++ [(websocket, VDict (response_to entries now))])).
Proof.
  intros Hacc Hout Hload Hsend Hclass.
  unfold websocket_endpoint, bind. rewrite (connect_run _ _ _ Hacc).
  unfold try_except_disconnect. simpl.
  unfold bind, lift. rewrite Hload. simpl. unfold send_json. simpl.
  unfold response_to in Hsend. rewrite Hsend, Hclass.
  unfold disconnect. simpl. rewrite (list_remove_app_last _ _ Hout). reflexivity.
Qed.

(** X15 on a transport whose peer has hung up. *)
Lemma send_disconnect_is_handled_hung_up :
  welcoming 1 = None
  /\ ~ In 1 (active_connections manager)
  /\ loads capture_frame = inr (VDict capture_message)
  /\ hung_up (length (outbox manager)) 1
       (VDict (response_to capture_message "2026-01-01T09:00:00"))
     = Some hung_up_error
  /\ is_WebSocketDisconnect hung_up_error = true
  /\ websocket_endpoint loads hung_up welcoming 1
       (Text capture_frame "2026-01-01T09:00:00" :: [Text "ping" "2026-01-01T09:00:05"])
       manager
     = (inr Returned,
        mkServer (active_connections manager)
          (outbox manager
           ++ [(1, VDict (response_to capture_message "2026-01-01T09:00:00"))])).
Proof.
  assert (Hout : ~ In 1 (active_connections manager)) by (simpl; tauto).
  split; [reflexivity |]. split; [exact Hout |]. split; [reflexivity |].
  split; [reflexivity |]. split; [reflexivity |].
  exact (send_disconnect_is_handled loads hung_up welcoming 1
           [Text "ping" "2026-01-01T09:00:05"] capture_frame "2026-01-01T09:00:00"
           capture_message hung_up_error manager eq_refl Hout eq_refl eq_refl eq_refl).
Defined.

(** X16: what becomes of the registration, on every path. Once the handshake
    succeeded: if the handler returns, every connection is registered as
    often as before the call; if it is suspended waiting for a frame, or if
    an exception leaves it, the connection is still registered, appended to
    the registry; and an exception that leaves it is never a
    [WebSocketDisconnect]. *)
Theorem websocket_registration
    (json_loads : string -> exn + value)
    (transport_send : nat -> WebSocket -> value -> option exn)
    (transport_accept : WebSocket -> option exn)
    (websocket : WebSocket) (inbox : list inbound) (s : Server) :
  transport_accept websocket = None ->
  match websocket_endpoint json_loads transport_send transport_accept
          websocket inbox s with
  | (inr Returned, s') =>
      forall c, count_occ Nat.eq_dec (active_connections s') c
                = count_occ Nat.eq_dec (active_connections s) c
  | (inr Awaiting, s') =>
      active_connections s' = (active_connections s ++ [websocket])%list
  | (inl e, s') =>
      is_WebSocketDisconnect e = false
      /\ active_connections s' = (active_connections s ++ [websocket])%list
  end.
Proof.
  intros Hacc.
  unfold websocket_endpoint, bind. rewrite (connect_run _ _ _ Hacc).
  unfold try_except_disconnect.
  pose proof (receive_loop_grows json_loads transport_send websocket inbox
                (joined s websocket)) as (Hreg & _).
  pose proof (receive_loop_never_returns json_loads transport_send websocket inbox
                (joined s websocket)) as Hst.
  destruct (receive_loop json_loads transport_send websocket inbox
              (joined s websocket)) as [[e | st] s2].
  - simpl in Hreg. destruct (is_WebSocketDisconnect e) eqn:Hclass.
    + unfold bind, disconnect. rewrite Hreg.
      destruct (list_remove websocket (active_connections s ++ [websocket]))
        as [remaining |] eqn:Hrem.
      * simpl. intros c.
        pose proof (list_remove_count _ _ _ Hrem c) as Hcount.
        rewrite count_occ_app in Hcount. simpl in Hcount.
        unfold WebSocket in *. destruct (Nat.eq_dec websocket c); lia.
      * exfalso.
        destruct (list_remove_present websocket (active_connections s ++ [websocket]))
          as (before & after & _ & _ & Hsome).
        { apply in_or_app. right. now left. }
        rewrite Hsome in Hrem. discriminate Hrem.
    + split; [exact Hclass | exact Hreg].
  - rewrite (Hst st s2 eq_refl). exact Hreg.
Qed.

(** X16 on a session that ends with a disconnect. *)
Lemma websocket_registration_after_disconnect :
  welcoming 1 = None
  /\ match websocket_endpoint loads sound welcoming 1
            [ReceiveRaises (mkExn WebSocketDisconnect "1000")] (mkServer [1; 2] []) with
     | (inr Returned, s') =>
         forall c, count_occ Nat.eq_dec (active_connections s') c
                   = count_occ Nat.eq_dec (active_connections (mkServer [1; 2] [])) c
     | (inr Awaiting, s') =>
         active_connections s'
         = (active_connections (mkServer [1; 2] []) ++ [1])%list
     | (inl e, s') =>
         is_WebSocketDisconnect e = false
         /\ active_connections s'
            = (active_connections (mkServer [1; 2] []) ++ [1])%list
     end.
Proof.
  split; [reflexivity |].
  exact (websocket_registration loads sound welcoming 1
           [ReceiveRaises (mkExn WebSocketDisconnect "1000")] (mkServer [1; 2] [])
           eq_refl).
Defined.

(** X17: the handler of a connection sends to that connection only, at most
    one message per text frame it received, and never removes what was sent
    before. *)
Theorem websocket_sends_to_own_connection
    (json_loads : string -> exn + value)
    (transport_send : nat -> WebSocket -> value -> option exn)
    (transport_accept : WebSocket -> option exn)
    (websocket : WebSocket) (inbox : list inbound) (s : Server) :
  exists more,
    outbox (snd (websocket_endpoint json_loads transport_send transport_accept
                   websocket inbox s))
    = (outbox s ++ more)%list
    /\ Forall (fun sent => fst sent = websocket) more
    /\ length more <= text_count inbox.
Proof.
  destruct (transport_accept websocket) as [e |] eqn:Hacc.
  - unfold websocket_endpoint, connect, accept, bind. rewrite Hacc.
    exists []. simpl. rewrite app_nil_r. repeat split; [constructor | lia].
  - rewrite endpoint_outbox by exact Hacc.
    exact (receive_loop_sends json_loads transport_send websocket inbox
             (joined s websocket)).
Qed.

(** ** Broadcasting *)

Lemma events_emitted_app (s s' : Server) (more : list (WebSocket * value)) :
  outbox s' = (outbox s ++ more)%list -> events_emitted s s' = more.
Proof.
  intros Hout. unfold events_emitted. rewrite Hout.
  rewrite skipn_app, skipn_all, Nat.sub_diag. reflexivity.
Qed.

Lemma send_to_each_delivers
    (transport : nat -> WebSocket -> value -> option exn) (message : value)
    (connections : list WebSocket) :
  (forall n c, In c connections -> transport n c message = None) ->
  forall s,
    send_to_each transport connections message s
    = (inr tt,
       mkServer (active_connections s)
         (outbox s ++ map (fun c => (c, message)) connections)).
Proof.
  induction connections as [| c rest IH]; intros Hsend s.
  - simpl. rewrite app_nil_r. destruct s; reflexivity.
  - simpl. unfold bind, send_json. rewrite Hsend by now left.
    rewrite IH by (intros n c' Hin; apply Hsend; now right).
    simpl. rewrite <- app_assoc. reflexivity.
Qed.

(** X18: when no send to a registered connection fails, [broadcast] returns,
    leaves the registry as it is, and has sent the event exactly once to each
    registration, in registration order. *)
Theorem broadcast_delivers_to_all
    (transport : nat -> WebSocket -> value -> option exn) (message : value)
    (s : Server) :
  (forall n c, In c (active_connections s) -> transport n c message = None) ->
  broadcast transport message s
  = (inr tt,
     mkServer (active_connections s)
       (outbox s ++ map (fun c => (c, message)) (active_connections s))).
Proof.
  intros Hsend. unfold broadcast. apply send_to_each_delivers. exact Hsend.
Qed.

(** X18 with three observers on a transport that delivers. *)
Lemma broadcast_delivers_to_all_three :
  (forall n c, In c (active_connections (mkServer [1; 2; 3] [])) ->
               sound n c (VStr "plan_ready") = None)
  /\ broadcast sound (VStr "plan_ready") (mkServer [1; 2; 3] [])
     = (inr tt,
        mkServer (active_connections (mkServer [1; 2; 3] []))
          (outbox (mkServer [1; 2; 3] [])
           ++ map (fun c => (c, VStr "plan_ready"))
                (active_connections (mkServer [1; 2; 3] [])))).
Proof.
  assert (Hsend : forall n c, In c (active_connections (mkServer [1; 2; 3] [])) ->
                              sound n c (VStr "plan_ready") = None)
    by reflexivity.
  split; [exact Hsend |].
  exact (broadcast_delivers_to_all sound (VStr "plan_ready") (mkServer [1; 2; 3] [])
           Hsend).
Defined.

(** X19: [broadcast] reaches registered connections only, with the event it
    was given: a connection that is not registered when [broadcast] is called
    gets nothing from it, whether the sends succeed or fail. *)
Theorem broadcast_skips_unregistered
    (transport : nat -> WebSocket -> value -> option exn) (message : value)
    (websocket : WebSocket) (s : Server) :
  ~ In websocket (active_connections s) ->
  ~ In websocket
      (map fst (events_emitted s (snd (broadcast transport message s))))
  /\ Forall (fun sent => snd sent = message)
        (events_emitted s (snd (broadcast transport message s))).
Proof.
  intros Hout. unfold broadcast.
  destruct (send_to_each_run transport message (active_connections s) s)
    as (_ & attempted & rest & Hsplit & Hsent & _).
  rewrite (events_emitted_app _ _ _ Hsent). split.
  - rewrite map_map. simpl. rewrite map_id. intros Hin. apply Hout.
    rewrite Hsplit. apply in_or_app. now left.
  - apply Forall_forall. intros sent Hin.
    apply in_map_iff in Hin. destruct Hin as (c & <- & _). reflexivity.
Qed.

(** X19 for connection [4] while [2] fails. *)
Lemma broadcast_skips_unregistered_fourth :
  ~ In 4 (active_connections (mkServer [1; 2; 3] []))
  /\ ~ In 4 (map fst (events_emitted (mkServer [1; 2; 3] [])
                        (snd (broadcast lossy (VStr "plan_ready")
                                (mkServer [1; 2; 3] [])))))
  /\ Forall (fun sent => snd sent = VStr "plan_ready")
        (events_emitted (mkServer [1; 2; 3] [])
           (snd (broadcast lossy (VStr "plan_ready") (mkServer [1; 2; 3] [])))).
Proof.
  assert (Hout : ~ In 4 (active_connections (mkServer [1; 2; 3] []))).
  { simpl. intros [H | [H | [H | H]]]; try discriminate H. exact H. }
  split; [exact Hout |].
  exact (broadcast_skips_unregistered lossy (VStr "plan_ready") 4
           (mkServer [1; 2; 3] []) Hout).
Defined.

(** X20: two broadcasts in a row, no send failing: every registered
    connection gets the first event before the second, and the outbox holds
    the whole first round before the second. *)
Theorem broadcasts_keep_their_order
    (transport : nat -> WebSocket -> value -> option exn) (first second : value)
    (s : Server) :
  (forall n c message, In c (active_connections s) -> transport n c message = None) ->
  (broadcast transport first ;; broadcast transport second) s
  = (inr tt,
     mkServer (active_connections s)
       (outbox s
        ++ map (fun c => (c, first)) (active_connections s)
        ++ map (fun c => (c, second)) (active_connections s))).
Proof.
  intros Hsend. unfold bind, broadcast.
  rewrite (send_to_each_delivers transport first (active_connections s))
    by (intros; now apply Hsend).
  simpl.
  rewrite (send_to_each_delivers transport second (active_connections s))
    by (intros; now apply Hsend).
  simpl. rewrite <- app_assoc. reflexivity.
Qed.

(** X20 with two observers. *)
Lemma broadcasts_keep_their_order_two :
  (forall n c message, In c (active_connections (mkServer [1; 2] [])) ->
                       sound n c message = None)
  /\ (broadcast sound (VStr "step_started") ;; broadcast sound (VStr "step_finished"))
       (mkServer [1; 2] [])
     = (inr tt,
        mkServer (active_connections (mkServer [1; 2] []))
          (outbox (mkServer [1; 2] [])
           ++ map (fun c => (c, VStr "step_started"))
                (active_connections (mkServer [1; 2] []))
           ++ map (fun c => (c, VStr "step_finished"))
                (active_connections (mkServer [1; 2] [])))).
Proof.
  assert (Hsend : forall n c message,
            In c (active_connections (mkServer [1; 2] [])) ->
            sound n c message = None) by reflexivity.
  split; [exact Hsend |].
  exact (broadcasts_keep_their_order sound (VStr "step_started")
           (VStr "step_finished") (mkServer [1; 2] []) Hsend).
Defined.
